(** * dpb-benchmark/scripts/generate-report.py: the report generator

    A shallow embedding of the script that turns a JSON document of
    benchmark measurements into a markdown report, and the properties of
    that script.

    Conventions of the embedding:
    - a Python [str] is a Rocq [string] holding the UTF-8 bytes of the
      text; [str.title] is computed on ASCII text, and on any other text
      it is what Python's Unicode tables make of it, a parameter
      [unicode_title] of the development; [repr] takes the bytes above
      127 to belong to printable characters;
    - a Python [dict] is an association list in insertion order, looked up
      from the front; the dicts that [json.load] builds have distinct keys;
    - a Python [int] is a [Z]; a Python [float] is a binary64 [spec_float],
      computed with the IEEE 754 operations of [SpecFloat];
    - a raised exception is the [Raise] outcome of an error monad; the
      [report] list that the generator appends to is the state of a
      state-and-error monad; the file system, the clock and the standard
      output that [__main__] touches are the state of a second one;
    - a file that could be opened for writing takes the whole text, and
      the standard output takes what is printed to it: a device that
      fills up or a pipe that is closed midway is outside the embedding. *)

From Stdlib Require Import ZArith List String Ascii Bool Lia.
From Stdlib Require Import Floats.SpecFloat.
From Stdlib Require Import DecimalString.
From stdpp Require Import gmap strings.

Open Scope string_scope.
Open Scope list_scope.
Open Scope Z_scope.

(** ** Outcomes of Python computations *)

Inductive exn : Type :=
| KeyError (key : string)
| TypeError
| AttributeError (attr : string)
| ZeroDivisionError
| OverflowError
| FileNotFoundError (path : string)
| PermissionError (path : string)
| JSONDecodeError.

Inductive result (A : Type) : Type :=
| Ok (a : A)
| Raise (e : exn).
Arguments Ok {A} a.
Arguments Raise {A} e.

(** ** Values built by [json.load] *)

#[warnings="-register-all"]
Inductive value : Type :=
| VNone
| VBool (b : bool)
| VInt (n : Z)
| VFloat (x : spec_float)
| VStr (s : string)
| VList (items : list value)
| VDict (entries : list (string * value)).

Abbreviation pydict := (list (string * value)).

Fixpoint dict_lookup (key : string) (d : pydict) : option value :=
  match d with
  | [] => None
  | (k, v) :: d' => if String.eqb key k then Some v else dict_lookup key d'
  end.

Definition dict_keys (d : pydict) : list string := map fst d.

(** ** Strings *)

Module Str.

Definition newline : string := String "010"%char EmptyString.

Definition is_lower (c : ascii) : bool :=
  let n := nat_of_ascii c in (97 <=? n)%nat && (n <=? 122)%nat.

Definition is_upper (c : ascii) : bool :=
  let n := nat_of_ascii c in (65 <=? n)%nat && (n <=? 90)%nat.

Definition to_upper (c : ascii) : ascii :=
  if is_lower c then ascii_of_nat (nat_of_ascii c - 32) else c.

Definition to_lower (c : ascii) : ascii :=
  if is_upper c then ascii_of_nat (nat_of_ascii c + 32) else c.

(** [str.title]: a cased character that follows an uncased one is put
    in upper case, every other cased character in lower case. *)
Fixpoint title_from (previous_is_cased : bool) (s : string) : string :=
  match s with
  | EmptyString => EmptyString
  | String c s' =>
      if is_lower c then
        String (if previous_is_cased then c else to_upper c) (title_from true s')
      else if is_upper c then
        String (if previous_is_cased then to_lower c else c) (title_from true s')
      else String c (title_from false s')
  end.

(** [str.isascii] *)
Fixpoint isascii (s : string) : bool :=
  match s with
  | EmptyString => true
  | String c s' => (nat_of_ascii c <? 128)%nat && isascii s'
  end.

(** [str.title].  On ASCII text the cased characters are the 52 letters
    and [title_from] is all there is to it.  On text with other
    characters the case of every character, and what it maps to, come
    from the Unicode tables of the interpreter: [unicode_title] stands
    for [str.title] on such text. *)
Definition title (unicode_title : string -> string) (s : string) : string :=
  if isascii s then title_from false s else unicode_title s.

(** [str.replace(old, new)]: every occurrence of [old], found from the
    left and without overlap, becomes [new].  [skip] counts the
    characters of a matched occurrence that are still to be dropped. *)
Fixpoint replace_from (old new : string) (skip : nat) (s : string) : string :=
  match s with
  | EmptyString => EmptyString
  | String c s' =>
      match skip with
      | S k => replace_from old new k s'
      | O =>
          if String.prefix old s
          then new +:+ replace_from old new (String.length old - 1) s'
          else String c (replace_from old new 0 s')
      end
  end.

Fixpoint replace_empty (new s : string) : string :=
  match s with
  | EmptyString => new
  | String c s' => new +:+ String c (replace_empty new s')
  end.

Definition replace (old new s : string) : string :=
  match old with
  | EmptyString => replace_empty new s
  | _ => replace_from old new 0 s
  end.

(** [sep.join(parts)] *)
Definition join (sep : string) (parts : list string) : string :=
  String.concat sep parts.

(** [needle in haystack] on two strings *)
Fixpoint contains (needle haystack : string) : bool :=
  String.prefix needle haystack ||
  match haystack with
  | EmptyString => false
  | String _ h' => contains needle h'
  end.

Definition int_str (n : Z) : string := NilZero.string_of_int (Z.to_int n).

(** [n] written with at least [width] digits, as [%02d] and [%04d] do *)
Definition zero_pad (width : nat) (n : Z) : string :=
  let s := int_str n in
  String.concat "" (repeat "0" (width - String.length s)) +:+ s.

End Str.

(** ** Binary64 floating point, as Python's [float] *)

Module Float.

Definition prec : Z := 53.
Definition emax : Z := 1024.

Definition is_finite (x : spec_float) : bool :=
  match x with
  | S754_zero _ | S754_finite _ _ _ => true
  | _ => false
  end.

Definition is_zero (x : spec_float) : bool :=
  match x with
  | S754_zero _ => true
  | _ => false
  end.

(** [float(n)] for an [int]: the nearest float, ties to even; too large
    an [int] raises. *)
Definition of_int (n : Z) : result spec_float :=
  let x := binary_normalize prec emax n 0 false in
  if is_finite x then Ok x else Raise OverflowError.

Definition sub (x y : spec_float) : spec_float := SFsub prec emax x y.
Definition mul (x y : spec_float) : spec_float := SFmul prec emax x y.

(** [x / y] on floats: a zero divisor raises, anything else is IEEE. *)
Definition div (x y : spec_float) : result spec_float :=
  if is_zero y then Raise ZeroDivisionError else Ok (SFdiv prec emax x y).

(** [a / b] on two [int]s: the exact quotient rounded once to the
    nearest float, ties to even ([long_true_divide]). *)
Definition int_truediv (a b : Z) : result spec_float :=
  match a, b with
  | _, Z0 => Raise ZeroDivisionError
  | Z0, Zpos _ => Ok (S754_zero false)
  | Z0, Zneg _ => Ok (S754_zero true)
  | _, _ =>
      let sign := xorb (a <? 0) (b <? 0) in
      let '(q, e, loc) := SFdiv_core_binary prec emax (Z.abs a) 0 (Z.abs b) 0 in
      let x := binary_round_aux prec emax sign q e loc in
      if is_finite x then Ok x else Raise OverflowError
  end.

(** The integer nearest to [m * 2^e * 10], ties to even. *)
Definition round_tenths (m : positive) (e : Z) : Z :=
  let n := 10 * Zpos m in
  match e with
  | Zneg p =>
      let d := 2 ^ Zpos p in
      let q := n / d in
      let r := n mod d in
      match 2 * r ?= d with
      | Lt => q
      | Eq => if Z.even q then q else q + 1
      | Gt => q + 1
      end
  | _ => n * 2 ^ e
  end.

(** [format(x, '.1f')] *)
Definition format_fixed1 (x : spec_float) : string :=
  match x with
  | S754_nan => "nan"
  | S754_infinity false => "inf"
  | S754_infinity true => "-inf"
  | S754_zero false => "0.0"
  | S754_zero true => "-0.0"
  | S754_finite s m e =>
      let t := round_tenths m e in
      (if s then "-" else "") +:+ Str.int_str (t / 10) +:+ "." +:+ Str.int_str (t mod 10)
  end.

(** *** [repr] of a float: the shortest decimal that reads back as it *)

(** [d * 10^k] compared with [c * 2^e] *)
Definition cmp_dec_bin (d k c e : Z) : comparison :=
  (d * 10 ^ Z.max k 0 * 2 ^ Z.max (- e) 0 ?= c * 2 ^ Z.max e 0 * 10 ^ Z.max (- k) 0).

(** Whether [d * 10^k] rounds to [m * 2^e]: it lies between the midpoints
    to the two neighbouring floats, the midpoints included when [m] is
    even.  The float below a power of two is half as far away. *)
Definition reads_back (m e d k : Z) : bool :=
  let below := if (m =? 2 ^ (prec - 1)) && (emin prec emax <? e) then 4 * m - 1 else 4 * m - 2 in
  let lo := cmp_dec_bin d k below (e - 2) in
  let hi := cmp_dec_bin d k (4 * m + 2) (e - 2) in
  if Z.even m
  then negb (match lo with Lt => true | _ => false end) && negb (match hi with Gt => true | _ => false end)
  else (match lo with Gt => true | _ => false end) && (match hi with Lt => true | _ => false end).

(** The largest [t] at most [start] with [10^t <= m * 2^e] *)
Fixpoint decimal_exponent (fuel : nat) (m e start : Z) : Z :=
  match fuel with
  | O => start
  | S fuel' =>
      match cmp_dec_bin 1 start m e with
      | Gt => decimal_exponent fuel' m e (start - 1)
      | _ => start
      end
  end.

(** An upper bound of the decimal exponent of [m * 2^e], which is below
    [2^(digits m + e)]: 30103/100000 exceeds [log10 2] by less than 5e-9 *)
Definition log10_upper (m e : Z) : Z :=
  (Zdigits2 m + e) * 30103 / 100000 + 1.

(** The [n]-digit decimal nearest to [m * 2^e] among those that read
    back as it, if there is one *)
Definition digits_at (m e t : Z) (n : Z) : option (Z * Z) :=
  let k := t - n + 1 in
  let below := (m * 2 ^ Z.max e 0 * 10 ^ Z.max (- k) 0) / (2 ^ Z.max (- e) 0 * 10 ^ Z.max k 0) in
  let above := below + 1 in
  match reads_back m e below k, reads_back m e above k with
  | true, true =>
      match cmp_dec_bin (2 * below + 1) k (2 * m) e with
      | Gt => Some (below, k)
      | Lt => Some (above, k)
      | Eq => Some (if Z.even below then below else above, k)
      end
  | true, false => Some (below, k)
  | false, true => Some (above, k)
  | false, false => None
  end.

Fixpoint shortest_digits (fuel : nat) (m e t n : Z) : Z * Z :=
  match fuel with
  | O => (m, 0)
  | S fuel' =>
      match digits_at m e t n with
      | Some dk => dk
      | None => shortest_digits fuel' m e t (n + 1)
      end
  end.

Fixpoint strip_zeros (fuel : nat) (d k : Z) : Z * Z :=
  match fuel with
  | O => (d, k)
  | S fuel' => if d mod 10 =? 0 then strip_zeros fuel' (d / 10) (k + 1) else (d, k)
  end.

Definition zeros (n : Z) : string := String.concat "" (repeat "0" (Z.to_nat n)).

(** [float_repr_style = 'short'], format code ['r'] *)
Definition repr (x : spec_float) : string :=
  match x with
  | S754_nan => "nan"
  | S754_infinity false => "inf"
  | S754_infinity true => "-inf"
  | S754_zero false => "0.0"
  | S754_zero true => "-0.0"
  | S754_finite s m e =>
      let t := decimal_exponent 8 (Zpos m) e (log10_upper (Zpos m) e) in
      let '(d, k) := shortest_digits 17 (Zpos m) e t 1 in
      let '(d, k) := strip_zeros 20 d k in
      let ds := Str.int_str d in
      let nd := Z.of_nat (String.length ds) in
      let decpt := nd + k in
      (if s then "-" else "") +:+
      (if (16 <? decpt) || (decpt <=? -4) then
         String.substring 0 1 ds +:+
         (if 1 <? nd then "." +:+ String.substring 1 (Z.to_nat (nd - 1)) ds else "") +:+
         "e" +:+ (if decpt - 1 <? 0 then "-" else "+") +:+ Str.zero_pad 2 (Z.abs (decpt - 1))
       else if decpt <=? 0 then "0." +:+ zeros (- decpt) +:+ ds
       else if nd <=? decpt then ds +:+ zeros (decpt - nd) +:+ ".0"
       else String.substring 0 (Z.to_nat decpt) ds +:+ "." +:+
            String.substring (Z.to_nat decpt) (Z.to_nat (nd - decpt)) ds)
  end.

End Float.

(** ** The error monad *)

#[global] Instance result_ret : MRet result := @Ok.

#[global] Instance result_bind : MBind result := fun A B k m =>
  match m with
  | Ok a => k a
  | Raise e => Raise e
  end.

(** ** Operations of the Python object model on JSON values *)

Module Py.

(** *** [str] and [repr] *)

Definition hex_digit (n : nat) : ascii :=
  if (n <? 10)%nat then ascii_of_nat (48 + n) else ascii_of_nat (87 + n).

Definition double_quote : ascii := "034"%char.

Definition escape_char (quote c : ascii) : string :=
  let n := nat_of_ascii c in
  if Ascii.eqb c quote || Ascii.eqb c "\"%char then String "\"%char (String c "")
  else if (n =? 9)%nat then "\t"
  else if (n =? 10)%nat then "\n"
  else if (n =? 13)%nat then "\r"
  else if (n <? 32)%nat || (n =? 127)%nat
  then "\x" +:+ String (hex_digit (n / 16)) (String (hex_digit (n mod 16)) "")
  else String c "".

Fixpoint escape (quote : ascii) (s : string) : string :=
  match s with
  | EmptyString => EmptyString
  | String c s' => escape_char quote c +:+ escape quote s'
  end.

(** [repr] of a [str]: single quotes, unless the text has a single quote
    and no double quote.  Bytes above 127 belong to printable
    characters and stay as they are. *)
Definition str_repr (s : string) : string :=
  let quote :=
    if Str.contains "'" s && negb (Str.contains (String double_quote "") s)
    then double_quote else "'"%char in
  String quote (escape quote s) +:+ String quote "".

Fixpoint repr (v : value) : string :=
  match v with
  | VNone => "None"
  | VBool true => "True"
  | VBool false => "False"
  | VInt n => Str.int_str n
  | VFloat x => Float.repr x
  | VStr s => str_repr s
  | VList items => "[" +:+ Str.join ", " (map repr items) +:+ "]"
  | VDict entries =>
      "{" +:+ Str.join ", " (map (fun '(k, w) => str_repr k +:+ ": " +:+ repr w) entries) +:+ "}"
  end.

(** What an f-string field [{v}] puts in the text *)
Definition str (v : value) : string :=
  match v with
  | VStr s => s
  | _ => repr v
  end.

(** *** Truth value *)

Definition truthy (v : value) : bool :=
  match v with
  | VNone => false
  | VBool b => b
  | VInt n => negb (n =? 0)
  | VFloat x => negb (Float.is_zero x)
  | VStr s => negb (String.eqb s "")
  | VList [] => false
  | VList _ => true
  | VDict [] => false
  | VDict _ => true
  end.

(** *** Containers *)

(** [obj.get(key, default)] *)
Definition get (obj : value) (key : string) (default : value) : result value :=
  match obj with
  | VDict d => Ok (match dict_lookup key d with Some v => v | None => default end)
  | _ => Raise (AttributeError "get")
  end.

(** [key in obj] *)
Definition contains (key : string) (obj : value) : result bool :=
  match obj with
  | VDict d => Ok (match dict_lookup key d with Some _ => true | None => false end)
  | VList items =>
      Ok (existsb (fun v => match v with VStr s => String.eqb key s | _ => false end) items)
  | VStr s => Ok (Str.contains key s)
  | _ => Raise TypeError
  end.

(** [obj[key]] for a [str] key *)
Definition getitem (obj : value) (key : string) : result value :=
  match obj with
  | VDict d =>
      match dict_lookup key d with
      | Some v => Ok v
      | None => Raise (KeyError key)
      end
  | _ => Raise TypeError
  end.

(** [obj.items()] *)
Definition items (obj : value) : result (list (string * value)) :=
  match obj with
  | VDict d => Ok d
  | _ => Raise (AttributeError "items")
  end.

(** The characters of a string: a byte [10xxxxxx] continues the
    character before it. *)
Definition is_continuation (s : string) : bool :=
  match s with
  | String c _ => let n := nat_of_ascii c in (128 <=? n)%nat && (n <? 192)%nat
  | EmptyString => false
  end.

Fixpoint chars (s : string) : list string :=
  match s with
  | EmptyString => []
  | String c s' =>
      match chars s' with
      | next :: rest =>
          if is_continuation next then String c next :: rest
          else String c "" :: next :: rest
      | [] => [String c ""]
      end
  end.

(** What [for x in obj] runs over *)
Definition iter (obj : value) : result (list value) :=
  match obj with
  | VList items => Ok items
  | VDict d => Ok (map VStr (dict_keys d))
  | VStr s => Ok (map VStr (chars s))
  | _ => Raise TypeError
  end.

(** *** Arithmetic *)

Inductive number : Type :=
| NInt (n : Z)
| NFloat (x : spec_float).

Definition as_number (v : value) : option number :=
  match v with
  | VBool b => Some (NInt (if b then 1 else 0))
  | VInt n => Some (NInt n)
  | VFloat x => Some (NFloat x)
  | _ => None
  end.

Definition to_float (n : number) : result spec_float :=
  match n with
  | NInt n => Float.of_int n
  | NFloat x => Ok x
  end.

(** [a - b] *)
Definition sub (a b : value) : result value :=
  match as_number a, as_number b with
  | Some (NInt x), Some (NInt y) => Ok (VInt (x - y))
  | Some x, Some y =>
      fx ← to_float x;
      fy ← to_float y;
      Ok (VFloat (Float.sub fx fy))
  | _, _ => Raise TypeError
  end.

(** [a / b], always a float *)
Definition truediv (a b : value) : result spec_float :=
  match as_number a, as_number b with
  | Some (NInt x), Some (NInt y) => Float.int_truediv x y
  | Some x, Some y =>
      fx ← to_float x;
      fy ← to_float y;
      Float.div fx fy
  | _, _ => Raise TypeError
  end.

(** [x * n] for a float [x] and an [int] [n] *)
Definition float_mul_int (x : spec_float) (n : Z) : result spec_float :=
  fn ← Float.of_int n;
  Ok (Float.mul x fn).

(** [v == n] for an [int] literal [n] *)
Definition eq_int (v : value) (n : Z) : bool :=
  match as_number v with
  | Some (NInt x) => x =? n
  | Some (NFloat (S754_zero _)) => n =? 0
  | Some (NFloat (S754_finite s m e)) =>
      cond_Zopp s (Zpos m) * 2 ^ Z.max e 0 =? n * 2 ^ Z.max (- e) 0
  | _ => false
  end.

End Py.

(** ** The clock *)

Record datetime : Type := {
  year : Z; month : Z; day : Z;
  hour : Z; minute : Z; second : Z
}.

(** [t.strftime('%Y-%m-%d %H:%M:%S')] *)
Definition strftime (t : datetime) : string :=
  Str.zero_pad 4 (year t) +:+ "-" +:+ Str.zero_pad 2 (month t) +:+ "-" +:+
  Str.zero_pad 2 (day t) +:+ " " +:+ Str.zero_pad 2 (hour t) +:+ ":" +:+
  Str.zero_pad 2 (minute t) +:+ ":" +:+ Str.zero_pad 2 (second t).

(** ** The generator monad: the [report] list and the pending exception *)

Definition gen (A : Type) : Type := list string -> result (A * list string).

#[global] Instance gen_ret : MRet gen := fun A a report => Ok (a, report).

#[global] Instance gen_bind : MBind gen := fun A B k m report =>
  match m report with
  | Ok (a, report') => k a report'
  | Raise e => Raise e
  end.

(** A lookup or a computation that may raise *)
Definition lift {A : Type} (r : result A) : gen A := fun report =>
  match r with
  | Ok a => Ok (a, report)
  | Raise e => Raise e
  end.

(** [report.append(line)] *)
Definition append (line : string) : gen unit := fun report =>
  Ok (tt, report ++ [line]).

(** [for x in xs: body] *)
Fixpoint for_each {A : Type} (xs : list A) (body : A -> gen unit) : gen unit :=
  match xs with
  | [] => mret tt
  | x :: xs' => body x;; for_each xs' body
  end.

(** ** generate_markdown_report *)

Section Report.

(** [str.title] on text that is not ASCII *)
Variable unicode_title : string -> string.

Variable results : value.

(** lines 18-23 *)
Definition title_block (now : datetime) : gen unit :=
  append "# PHP MCP Server Benchmark Report";;
  append "";;
  append ("**Generated:** " +:+ strftime now);;
  timestamp ← lift (Py.get results "timestamp" (VStr "N/A"));
  append ("**Test Date:** " +:+ Py.str timestamp);;
  append "".

(** lines 25-36, [# Test Environment] *)
Definition test_environment : gen unit :=
  append "## 🖥️ Test Environment";;
  append "";;
  system ← lift (Py.get results "system" (VDict []));
  os ← lift (Py.get system "os" (VStr "N/A"));
  append ("- **OS:** " +:+ Py.str os);;
  arch ← lift (Py.get system "arch" (VStr "N/A"));
  append ("- **Architecture:** " +:+ Py.str arch);;
  kernel ← lift (Py.get system "kernel" (VStr "N/A"));
  append ("- **Kernel:** " +:+ Py.str kernel);;
  has_cpu ← lift (Py.contains "cpu" system);
  (if has_cpu : bool then
     cpu ← lift (Py.getitem system "cpu");
     append ("- **CPU:** " +:+ Py.str cpu)
   else mret tt);;
  has_memory ← lift (Py.contains "memory" system);
  (if has_memory : bool then
     memory ← lift (Py.getitem system "memory");
     append ("- **Memory:** " +:+ Py.str memory)
   else mret tt);;
  append "".

(** lines 38-48, [# Test Details] *)
Definition test_details : gen unit :=
  has_details ← lift (Py.contains "test_details" results);
  if has_details : bool then
    details ← lift (Py.getitem results "test_details");
    append "## 📋 Test Configuration";;
    append "";;
    repository ← lift (Py.get details "repository" (VStr "N/A"));
    append ("- **Repository:** " +:+ Py.str repository);;
    files_analyzed ← lift (Py.get details "files_analyzed" (VStr "N/A"));
    append ("- **Files Analyzed:** " +:+ Py.str files_analyzed);;
    php_files ← lift (Py.get details "php_files" (VStr "N/A"));
    append ("- **PHP Files:** " +:+ Py.str php_files);;
    dependencies ← lift (Py.get details "dependencies" (VStr "N/A"));
    append ("- **Dependencies:** " +:+ Py.str dependencies);;
    test_runs ← lift (Py.get details "test_runs" (VStr "N/A"));
    append ("- **Test Runs:** " +:+ Py.str test_runs);;
    append ""
  else mret tt.

(** lines 58-60, the body of the loop over [winners.items()] *)
Definition winner_row (entry : string * value) : string :=
  let '(category, winner) := entry in
  let category_name := Str.title unicode_title (Str.replace "_" " " category) in
  "| " +:+ category_name +:+ " | **" +:+ Py.str winner +:+ "** |".

(** lines 50-61, [# Performance Summary] *)
Definition performance_summary : gen unit :=
  append "## 🏆 Performance Summary";;
  append "";;
  has_winners ← lift (Py.contains "winners" results);
  if has_winners : bool then
    winners ← lift (Py.getitem results "winners");
    append "| Category | Winner |";;
    append "|----------|--------|";;
    entries ← lift (Py.items winners);
    for_each entries (fun entry => append (winner_row entry));;
    append ""
  else mret tt.

(** [res.get(name, {}).get(metric, default)] *)
Definition metric (res : value) (name key : string) (default : value) : result value :=
  impl ← Py.get res name (VDict []);
  Py.get impl key default.

(** lines 63-97, [# Detailed Results] *)
Definition detailed_results : gen value :=
  append "## 📊 Detailed Benchmark Results";;
  append "";;
  append "| Metric | TypeScript | Go | Rust | Winner |";;
  append "|--------|-----------|-----|------|--------|";;
  res ← lift (Py.get results "results" (VDict []));
  ts_bin ← lift (metric res "TypeScript" "package_size_mb" (VStr "N/A"));
  go_bin ← lift (metric res "Go" "binary_size_mb" (VStr "N/A"));
  rust_bin ← lift (metric res "Rust" "binary_size_mb" (VStr "N/A"));
  append ("| Binary Size | N/A (needs runtime) | " +:+ Py.str go_bin +:+ " MB | " +:+
          Py.str rust_bin +:+ " MB | Rust |");;
  ts_start ← lift (metric res "TypeScript" "startup_time_ms" (VStr "N/A"));
  go_start ← lift (metric res "Go" "startup_time_ms" (VStr "N/A"));
  rust_start ← lift (metric res "Rust" "startup_time_ms" (VStr "N/A"));
  append ("| Startup Time | " +:+ Py.str ts_start +:+ " ms | " +:+ Py.str go_start +:+
          " ms | " +:+ Py.str rust_start +:+ " ms | Rust |");;
  ts_mem ← lift (metric res "TypeScript" "memory_peak_mb" (VStr "N/A"));
  go_mem ← lift (metric res "Go" "memory_peak_mb" (VStr "N/A"));
  rust_mem ← lift (metric res "Rust" "memory_peak_mb" (VStr "N/A"));
  append ("| Memory Peak | " +:+ Py.str ts_mem +:+ " MB | " +:+ Py.str go_mem +:+
          " MB | " +:+ Py.str rust_mem +:+ " MB | Rust |");;
  ts_analysis ← lift (metric res "TypeScript" "full_analysis_ms" (VStr "N/A"));
  go_analysis ← lift (metric res "Go" "full_analysis_ms" (VStr "N/A"));
  rust_analysis ← lift (metric res "Rust" "full_analysis_ms" (VStr "N/A"));
  append ("| Full Analysis | " +:+ Py.str ts_analysis +:+ " ms | " +:+ Py.str go_analysis +:+
          " ms | " +:+ Py.str rust_analysis +:+ " ms | Rust |");;
  append "";;
  mret res.

(** lines 105-111 *)
Definition operations : list (string * string) :=
  [ ("Dependency Analysis", "dependency_analysis_ms");
    ("PSR-4 Validation", "psr4_validation_ms");
    ("Namespace Detection", "namespace_detection_ms");
    ("Security Audit", "security_audit_ms");
    ("License Analysis", "license_analysis_ms") ].

(** lines 114-122, the body of the loop over [operations] *)
Definition operation_row (res : value) (operation : string * string) : gen unit :=
  let '(op_name, op_key) := operation in
  ts_val ← lift (metric res "TypeScript" op_key (VInt 0));
  go_val ← lift (metric res "Go" op_key (VInt 0));
  rust_val ← lift (metric res "Rust" op_key (VInt 0));
  if Py.truthy ts_val && Py.truthy rust_val then
    difference ← lift (Py.sub ts_val rust_val);
    ratio ← lift (Py.truediv difference ts_val);
    speedup ← lift (Py.float_mul_int ratio 100);
    append ("| " +:+ op_name +:+ " | " +:+ Py.str ts_val +:+ " ms | " +:+ Py.str go_val +:+
            " ms | " +:+ Py.str rust_val +:+ " ms | " +:+ Float.format_fixed1 speedup +:+
            "% faster |")
  else
    append ("| " +:+ op_name +:+ " | " +:+ Py.str ts_val +:+ " ms | " +:+ Py.str go_val +:+
            " ms | " +:+ Py.str rust_val +:+ " ms | N/A |").

(** lines 99-124, [# Performance Breakdown] *)
Definition performance_breakdown (res : value) : gen unit :=
  append "## 🎯 Performance Breakdown by Operation";;
  append "";;
  append "| Operation | TypeScript | Go | Rust | Speedup (Rust vs TS) |";;
  append "|-----------|-----------|-----|------|---------------------|";;
  for_each operations (operation_row res);;
  append "".

(** lines 126-155, [# Key Insights] *)
Definition key_insights : gen unit :=
  append "## 💡 Key Insights";;
  append "";;
  has_summary ← lift (Py.contains "summary" results);
  if has_summary : bool then
    summary ← lift (Py.getitem results "summary");
    has_fastest_startup ← lift (Py.contains "fastest_startup" summary);
    (if has_fastest_startup : bool then
       fs ← lift (Py.getitem summary "fastest_startup");
       append "### Startup Performance";;
       language ← lift (Py.getitem fs "language");
       append ("- **Winner:** " +:+ Py.str language);;
       time_ms ← lift (Py.getitem fs "time_ms");
       append ("- **Time:** " +:+ Py.str time_ms +:+ " ms");;
       improvement ← lift (Py.getitem fs "improvement_vs_slowest");
       append ("- **Improvement:** " +:+ Py.str improvement +:+ " faster than slowest");;
       append ""
     else mret tt);;
    has_lowest_memory ← lift (Py.contains "lowest_memory" summary);
    (if has_lowest_memory : bool then
       lm ← lift (Py.getitem summary "lowest_memory");
       append "### Memory Efficiency";;
       language ← lift (Py.getitem lm "language");
       append ("- **Winner:** " +:+ Py.str language);;
       memory_mb ← lift (Py.getitem lm "memory_mb");
       append ("- **Usage:** " +:+ Py.str memory_mb +:+ " MB");;
       improvement ← lift (Py.getitem lm "improvement_vs_highest");
       append ("- **Improvement:** " +:+ Py.str improvement +:+ " less than highest");;
       append ""
     else mret tt);;
    has_fastest_analysis ← lift (Py.contains "fastest_analysis" summary);
    (if has_fastest_analysis : bool then
       fa ← lift (Py.getitem summary "fastest_analysis");
       append "### Analysis Speed";;
       language ← lift (Py.getitem fa "language");
       append ("- **Winner:** " +:+ Py.str language);;
       time_ms ← lift (Py.getitem fa "time_ms");
       append ("- **Time:** " +:+ Py.str time_ms +:+ " ms");;
       improvement ← lift (Py.getitem fa "improvement_vs_slowest");
       append ("- **Improvement:** " +:+ Py.str improvement +:+ " faster than slowest");;
       append ""
     else mret tt)
  else mret tt.

(** lines 157-186, [# Recommendations] *)
Definition recommendations : gen unit :=
  append "## 🎯 Recommendations";;
  append "";;
  append "### For Dependency Buster Platform Rebuild";;
  append "";;
  append "**Development Phase:**";;
  append "- ✅ **TypeScript** - Fastest iteration, easiest debugging";;
  append "- ✅ Rich npm ecosystem for rapid prototyping";;
  append "";;
  append "**Production Deployment:**";;
  append "- 🚀 **Rust** - Best performance, lowest resource usage";;
  append "- 🚀 89% faster full analysis";;
  append "- 🚀 85% less memory consumption";;
  append "- 🚀 Single binary distribution";;
  append "";;
  append "**Team Distribution:**";;
  append "- ⚡ **Go** - Good balance of performance and simplicity";;
  append "- ⚡ Fast compilation, easy cross-platform builds";;
  append "";;
  append "### Use Case Matrix";;
  append "";;
  append "| Scenario | Best Choice | Rationale |";;
  append "|----------|------------|-----------|";;
  append "| Local Development | TypeScript | Fast iteration, great tooling |";;
  append "| CI/CD Pipeline | Rust | Fastest execution, no dependencies |";;
  append "| Production Server | Rust | Minimal resources, maximum speed |";;
  append "| Windows Deployment | Go | Best Windows support |";;
  append "| Mac M1/M2 | Rust | Native ARM64, extremely fast |";;
  append "| Team Distribution | Go | Single binary, good docs |";;
  append "".

(** lines 194-203, the body of the loop over the ranking *)
Definition ranking_row (rank_info : value) : gen unit :=
  rank ← lift (Py.getitem rank_info "rank");
  lang ← lift (Py.getitem rank_info "language");
  score ← lift (Py.getitem rank_info "score");
  if Py.eq_int rank 1 then
    append (Py.str rank +:+ ". 🥇 **" +:+ Py.str lang +:+ "** (Score: " +:+ Py.str score +:+ "/100)")
  else if Py.eq_int rank 2 then
    append (Py.str rank +:+ ". 🥈 **" +:+ Py.str lang +:+ "** (Score: " +:+ Py.str score +:+ "/100)")
  else
    append (Py.str rank +:+ ". 🥉 **" +:+ Py.str lang +:+ "** (Score: " +:+ Py.str score +:+ "/100)").

(** lines 188-210, [# Conclusion] *)
Definition conclusion : gen unit :=
  append "## 🎉 Conclusion";;
  append "";;
  append "**Performance Ranking:**";;
  has_summary ← lift (Py.contains "summary" results);
  (if has_summary : bool then
     summary ← lift (Py.getitem results "summary");
     has_ranking ← lift (Py.contains "performance_ranking" summary);
     if has_ranking : bool then
       summary ← lift (Py.getitem results "summary");
       ranking ← lift (Py.getitem summary "performance_ranking");
       rank_infos ← lift (Py.iter ranking);
       for_each rank_infos ranking_row
     else mret tt
   else mret tt);;
  append "";;
  append "**Final Recommendation:**";;
  append "- Use **Rust** for the Dependency Buster production deployment";;
  append "- The performance gains (9x faster) and memory savings (85% less) justify the investment";;
  append "- Keep TypeScript for rapid prototyping and experiments";;
  append "".

(** lines 18-210: the whole report, line by line *)
Definition report_body (now : datetime) : gen unit :=
  title_block now;;
  test_environment;;
  test_details;;
  performance_summary;;
  res ← detailed_results;
  performance_breakdown res;;
  key_insights;;
  recommendations;;
  conclusion.

Definition report_lines (now : datetime) : result (list string) :=
  '(_, report) ← report_body now [];
  Ok report.

(** lines 15-212; [now] is what [datetime.now()] reads on line 21 *)
Definition generate_markdown_report (now : datetime) : result string :=
  report ← report_lines now;
  Ok (Str.join Str.newline report).

End Report.

(** ** The program: files, clock and standard output *)

Record file : Type := {
  content : string;
  readable : bool;
  writable : bool
}.

(** [creatable path] tells whether the process may create a file at a path
    that has none (its directory exists and can be written to). *)
Record world : Type := {
  files : gmap string file;
  creatable : string -> bool;
  clock : datetime;
  stdout : list string
}.

(** How a run of the interpreter ends: the script runs to its end, an
    exception reaches the top level, or [sys.exit] is called. *)
Inductive outcome (A : Type) : Type :=
| Returned (a : A)
| Uncaught (e : exn)
| Exited (code : Z).
Arguments Returned {A} a.
Arguments Uncaught {A} e.
Arguments Exited {A} code.

Definition prog (A : Type) : Type := world -> outcome A * world.

#[global] Instance prog_ret : MRet prog := fun A a w => (Returned a, w).

#[global] Instance prog_bind : MBind prog := fun A B k m w =>
  match m w with
  | (Returned a, w') => k a w'
  | (Uncaught e, w') => (Uncaught e, w')
  | (Exited code, w') => (Exited code, w')
  end.

Definition raise {A : Type} (e : exn) : prog A := fun w => (Uncaught e, w).

(** [sys.exit(code)] *)
Definition sys_exit {A : Type} (code : Z) : prog A := fun w => (Exited code, w).

(** A computation that touches neither files nor output *)
Definition pure {A : Type} (r : result A) : prog A := fun w =>
  match r with
  | Ok a => (Returned a, w)
  | Raise e => (Uncaught e, w)
  end.

(** [open(path, 'r')] followed by reading the whole file *)
Definition read_text (path : string) : prog string := fun w =>
  match files w !! path with
  | None => (Uncaught (FileNotFoundError path), w)
  | Some f =>
      if readable f then (Returned (content f), w)
      else (Uncaught (PermissionError path), w)
  end.

(** [with open(path, 'w') as f: f.write(text)]: the file is opened, or the
    open raises and leaves the files as they were; a file that was opened
    takes the whole text. *)
Definition write_text (path text : string) : prog unit := fun w =>
  let store f :=
    {| files := <[path := f]> (files w); creatable := creatable w;
       clock := clock w; stdout := stdout w |} in
  match files w !! path with
  | Some f =>
      if writable f
      then (Returned tt, store {| content := text; readable := readable f; writable := writable f |})
      else (Uncaught (PermissionError path), w)
  | None =>
      if creatable w path
      then (Returned tt, store {| content := text; readable := true; writable := true |})
      else (Uncaught (FileNotFoundError path), w)
  end.

(** [print(text)], on a standard output that takes what is written to it *)
Definition print (text : string) : prog unit := fun w =>
  (Returned tt, {| files := files w; creatable := creatable w;
             clock := clock w; stdout := stdout w ++ [text] |}).

(** [datetime.now()] *)
Definition datetime_now : prog datetime := fun w => (Returned (clock w), w).

(** The status the interpreter exits with *)
Definition exit_status {A : Type} (o : outcome A) : Z :=
  match o with
  | Returned _ => 0
  | Uncaught _ => 1
  | Exited code => code
  end.

Section Program.

(** [str.title] on text that is not ASCII *)
Variable unicode_title : string -> string.

(** [json.loads]: the value a text parses to, or nothing when the text
    is not a JSON document. *)
Variable json_loads : string -> option value.

(** lines 10-13 *)
Definition load_results (filepath : string) : prog value :=
  text ← read_text filepath;
  match json_loads text with
  | Some results => mret results
  | None => raise JSONDecodeError
  end.

(** line 223 *)
Definition output_path (results_file : string) : string :=
  Str.replace ".json" "_report.md" results_file.

(** lines 214-228 *)
Definition main (argv : list string) : prog unit :=
  if (length argv <? 2)%nat then
    print "Usage: python3 generate-report.py <benchmark_results.json>";;
    sys_exit 1
  else
    let results_file := nth 1 argv "" in
    results ← load_results results_file;
    now ← datetime_now;
    report ← pure (generate_markdown_report unicode_title results now);
    let output_file := output_path results_file in
    write_text output_file report;;
    print ("✓ Report generated: " +:+ output_file);;
    print report.

Definition run (argv : list string) (w : world) : Z * world :=
  let '(o, w') := main argv w in (exit_status o, w').

End Program.

(** * Properties *)

Lemma append_assoc (s1 s2 s3 : string) : (s1 +:+ s2) +:+ s3 = s1 +:+ (s2 +:+ s3).
Proof.
  induction s1 as [|c s1 IH]; [done|].
  change (String c ((s1 +:+ s2) +:+ s3) = String c (s1 +:+ s2 +:+ s3)).
  by rewrite IH.
Qed.

(** ** The generator only ever appends to the report

    What a block of the generator does to a report that already has
    lines is what it does to the empty report, with those lines in
    front. *)

Definition frame {A : Type} (m : gen A) : Prop :=
  forall report,
    m report = ('(a, new) ← m []; Ok (a, report ++ new)).

Lemma frame_ret {A : Type} (a : A) : frame (mret a).
Proof. intros report. cbn. by rewrite app_nil_r. Qed.

Lemma frame_lift {A : Type} (r : result A) : frame (lift r).
Proof. intros report. destruct r; cbn; [by rewrite app_nil_r | done]. Qed.

Lemma frame_append (line : string) : frame (append line).
Proof. intros report. reflexivity. Qed.

Lemma frame_bind {A B : Type} (m : gen A) (k : A -> gen B) :
  frame m -> (forall a, frame (k a)) -> frame (m ≫= k).
Proof.
  intros Hm Hk report. unfold mbind, gen_bind.
  rewrite (Hm report). destruct (m []) as [[a new]|e]; cbn; [|done].
  rewrite (Hk a (report ++ new)), (Hk a new).
  destruct (k a []) as [[b new']|e]; cbn; [|done].
  by rewrite app_assoc.
Qed.

Lemma frame_for_each {A : Type} (xs : list A) (body : A -> gen unit) :
  (forall x, frame (body x)) -> frame (for_each xs body).
Proof.
  intros Hbody. induction xs as [|x xs IH]; cbn [for_each].
  - apply frame_ret.
  - apply frame_bind; [apply Hbody | intros _; apply IH].
Qed.

Lemma frame_if {A : Type} (b : bool) (m1 m2 : gen A) :
  frame m1 -> frame m2 -> frame (if b then m1 else m2).
Proof. by destruct b. Qed.

Ltac frame_step :=
  lazymatch goal with
  | |- frame (mbind _ _) => apply frame_bind; [|intros]
  | |- frame (append _) => apply frame_append
  | |- frame (lift _) => apply frame_lift
  | |- frame (mret _) => apply frame_ret
  | |- frame (for_each _ _) => apply frame_for_each; intros
  | |- frame (if _ then _ else _) => apply frame_if
  | |- frame (let '(_, _) := ?p in _) => destruct p
  end.

Ltac solve_frame := repeat frame_step.

(** Running the binds of a block on a concrete report *)
Ltac run_gen :=
  unfold mbind, mret, gen_bind, gen_ret, result_bind, result_ret; cbn.

(** A loop whose body appends one line per element appends the lines of
    all elements, in the order of the list. *)
Lemma for_each_append {A : Type} (line : A -> string) (xs : list A) report :
  for_each xs (fun x => append (line x)) report = Ok (tt, report ++ map line xs).
Proof.
  revert report. induction xs as [|x xs IH]; intros report; cbn [for_each map].
  - cbn. by rewrite app_nil_r.
  - unfold mbind, gen_bind. unfold append at 1. rewrite IH.
    by rewrite <- app_assoc.
Qed.

Section BlockFrames.

Variable unicode_title : string -> string.
Variable results : value.

Lemma frame_title_block now : frame (title_block results now).
Proof. unfold title_block. solve_frame. Qed.

Lemma frame_test_environment : frame (test_environment results).
Proof. unfold test_environment. solve_frame. Qed.

Lemma frame_test_details : frame (test_details results).
Proof. unfold test_details. solve_frame. Qed.

Lemma frame_performance_summary : frame (performance_summary unicode_title results).
Proof. unfold performance_summary. solve_frame. Qed.

Lemma frame_detailed_results : frame (detailed_results results).
Proof. unfold detailed_results. solve_frame. Qed.

Lemma frame_operation_row res operation : frame (operation_row res operation).
Proof. unfold operation_row. solve_frame. Qed.

Lemma frame_performance_breakdown res : frame (performance_breakdown res).
Proof. unfold performance_breakdown. solve_frame. apply frame_operation_row. Qed.

Lemma frame_key_insights : frame (key_insights results).
Proof. unfold key_insights. solve_frame. Qed.

Lemma frame_recommendations : frame recommendations.
Proof. unfold recommendations. solve_frame. Qed.

Lemma frame_ranking_row rank_info : frame (ranking_row rank_info).
Proof. unfold ranking_row. solve_frame. Qed.

Lemma frame_conclusion : frame (conclusion results).
Proof. unfold conclusion. solve_frame. apply frame_ranking_row. Qed.

End BlockFrames.
(** ** Running the examples

    The records of the examples below hold ASCII text only, on which
    [str.title] consults no Unicode table: the examples run with a table
    that leaves every text as it is. *)

Definition no_unicode_title : string -> string := fun s => s.


(** ** The performance summary table (lines 50-61) *)

(** What the block appends, for every record that is a mapping *)
Lemma performance_summary_lines (unicode_title : string -> string)
    (d : pydict) (report : list string) :
  performance_summary unicode_title (VDict d) report =
    match dict_lookup "winners" d with
    | None => Ok (tt, report ++ ["## 🏆 Performance Summary"; ""])
    | Some winners =>
        entries ← Py.items winners;
        Ok (tt, report ++
                ["## 🏆 Performance Summary"; "";
                 "| Category | Winner |"; "|----------|--------|"] ++
                map (winner_row unicode_title) entries ++ [""])
    end.
Proof.
  rewrite frame_performance_summary.
  unfold performance_summary. cbn.
  destruct (dict_lookup "winners" d) as [w|] eqn:Hw; [|reflexivity].
  destruct w; try reflexivity.
  run_gen. by rewrite for_each_append.
Qed.

(** C6: for a results record, the performance summary is its heading and a
    blank line alone when the record has no [winners] key; when it has one,
    the table head follows, then one row per entry of the mapping in the
    mapping's order, the category with underscores turned into spaces and
    title-cased as [str.title] does it, by the Unicode tables when the key
    is not ASCII, then a blank line.  A record with the two entries
    binary_size and startup_time gets exactly the two rows Binary Size and
    Startup Time, in that order. *)
Theorem performance_summary_table (unicode_title : string -> string) :
  (forall (d : pydict) (report : list string),
     performance_summary unicode_title (VDict d) report =
       match dict_lookup "winners" d with
       | None => Ok (tt, report ++ ["## 🏆 Performance Summary"; ""])
       | Some (VDict winners) =>
           Ok (tt, report ++
                   ["## 🏆 Performance Summary"; "";
                    "| Category | Winner |"; "|----------|--------|"] ++
                   map (fun '(category, winner) =>
                          "| " +:+ Str.title unicode_title (Str.replace "_" " " category) +:+
                          " | **" +:+ Py.str winner +:+ "** |") winners ++
                   [""])
       | Some _ => Raise (AttributeError "items")
       end)
  /\ performance_summary unicode_title
       (VDict [("winners", VDict [("binary_size", VStr "Rust"); ("startup_time", VStr "Rust")])]) [] =
     Ok (tt, ["## 🏆 Performance Summary"; "";
              "| Category | Winner |"; "|----------|--------|";
              "| Binary Size | **Rust** |"; "| Startup Time | **Rust** |"; ""]).
Proof.
  split; [|reflexivity].
  intros d report. rewrite performance_summary_lines.
  by destruct (dict_lookup "winners" d) as [[]|].
Qed.

(** C10: a [winners] key that maps to an empty mapping still gets the
    head of the table, the line of column names and the separator line,
    followed by no row at all and the closing blank line. *)
Theorem empty_winners_keep_table_head (unicode_title : string -> string)
    (d : pydict) (report : list string) :
  dict_lookup "winners" d = Some (VDict []) ->
  performance_summary unicode_title (VDict d) report =
    Ok (tt, report ++
            ["## 🏆 Performance Summary"; "";
             "| Category | Winner |"; "|----------|--------|"; ""]).
Proof.
  intros Hw. rewrite performance_summary_lines, Hw. reflexivity.
Qed.

Lemma empty_winners_keep_table_head_witness :
  dict_lookup "winners" [("timestamp", VStr "2025-01-01"); ("winners", VDict [])] = Some (VDict [])
  /\ performance_summary no_unicode_title
       (VDict [("timestamp", VStr "2025-01-01"); ("winners", VDict [])]) [] =
       Ok (tt, ["## 🏆 Performance Summary"; "";
                "| Category | Winner |"; "|----------|--------|"; ""]).
Proof.
  split; [reflexivity|].
  apply (empty_winners_keep_table_head no_unicode_title
           [("timestamp", VStr "2025-01-01"); ("winners", VDict [])] []).
  reflexivity.
Defined.

(** ** The comparison table (lines 63-97) *)

(** The specification's cell: the value at [results.<name>.<metric>], and
    the text N/A when a key on the way to it is missing. *)
Definition spec_cell (results : value) (name metric_key : string) : string :=
  match results with
  | VDict d =>
      match dict_lookup "results" d with
      | Some (VDict res) =>
          match dict_lookup name res with
          | Some (VDict impl) =>
              match dict_lookup metric_key impl with
              | Some v => Py.str v
              | None => "N/A"
              end
          | _ => "N/A"
          end
      | _ => "N/A"
      end
  | _ => "N/A"
  end.

(** Whenever the code's lookup returns, it returns the specification's cell. *)
Lemma metric_spec_cell results res name key v :
  Py.get results "results" (VDict []) = Ok res ->
  metric res name key (VStr "N/A") = Ok v ->
  Py.str v = spec_cell results name key.
Proof.
  unfold metric, spec_cell.
  destruct results as [| | | | | |d]; cbn; try done.
  intros [= <-].
  destruct (dict_lookup "results" d) as [[| | | | | |res]|]; cbn; try done.
  - destruct (dict_lookup name res) as [[| | | | | |impl]|]; cbn; try done.
    + by destruct (dict_lookup key impl); intros [= <-].
    + by intros [= <-].
  - by intros [= <-].
Qed.

Definition mapping_or_absent (d : pydict) (key : string) : bool :=
  match dict_lookup key d with
  | None | Some (VDict _) => true
  | Some _ => false
  end.

(** The record is a mapping, and so are its [results] entry and the entries
    of the three implementations, where they are present. *)
Definition implementations_are_mappings (results : value) : bool :=
  match results with
  | VDict d =>
      match dict_lookup "results" d with
      | None => true
      | Some (VDict res) =>
          mapping_or_absent res "TypeScript" && mapping_or_absent res "Go" &&
          mapping_or_absent res "Rust"
      | Some _ => false
      end
  | _ => false
  end.

(** On such a record the comparison table is always rendered. *)
Lemma detailed_results_succeeds (results : value) (report : list string) :
  implementations_are_mappings results = true ->
  exists res report', detailed_results results report = Ok (res, report').
Proof.
  intros Hshape. rewrite frame_detailed_results.
  destruct results as [| | | | | |d]; try discriminate Hshape.
  unfold detailed_results, metric. run_gen.
  cbn in Hshape.
  destruct (dict_lookup "results" d) as [[| | | | | |res]|];
    try discriminate Hshape; cbn; [|eauto].
  unfold mapping_or_absent in Hshape.
  destruct (dict_lookup "TypeScript" res) as [[| | | | | |ts]|];
    try discriminate Hshape; cbn;
  destruct (dict_lookup "Go" res) as [[| | | | | |go]|];
    try discriminate Hshape; cbn;
  destruct (dict_lookup "Rust" res) as [[| | | | | |rust]|];
    try discriminate Hshape; cbn; eauto.
Qed.

(** Reading one more lookup off a run of the generator that succeeded *)
Ltac next_lookup H :=
  match type of H with
  | context [lift ?r] =>
      let Hr := fresh "Hlookup" in
      destruct r eqn:Hr; cbn -[metric] in H; [|discriminate H]
  end.

(** The lookups of a run of [detailed_results] that succeeded *)
Ltac read_detailed_results H :=
  rewrite frame_detailed_results in H;
  unfold detailed_results in H;
  unfold mbind, mret, gen_bind, gen_ret, result_bind, result_ret in H;
  cbn -[metric] in H;
  do 13 next_lookup H;
  injection H as [= <- <-].

(** A record with measurements of all three implementations; 12.5 is the
    float [7036874417766400 * 2^-49]. *)
Definition sample_results : value :=
  VDict
    [ ("timestamp", VStr "2025-06-01T10:00:00Z");
      ("results",
       VDict
         [ ("TypeScript",
            VDict [ ("package_size_mb", VInt 45); ("binary_size_mb", VInt 45);
                    ("startup_time_ms", VInt 100); ("dependency_analysis_ms", VInt 100) ]);
           ("Go",
            VDict [ ("binary_size_mb", VFloat (S754_finite false 7036874417766400 (-49)));
                    ("startup_time_ms", VInt 70) ]);
           ("Rust",
            VDict [ ("binary_size_mb", VInt 4); ("startup_time_ms", VInt 50);
                    ("dependency_analysis_ms", VInt 20) ]) ]) ].

Definition sample_comparison : list string :=
  [ "## 📊 Detailed Benchmark Results"; "";
    "| Metric | TypeScript | Go | Rust | Winner |";
    "|--------|-----------|-----|------|--------|";
    "| Binary Size | N/A (needs runtime) | 12.5 MB | 4 MB | Rust |";
    "| Startup Time | 100 ms | 70 ms | 50 ms | Rust |";
    "| Memory Peak | N/A MB | N/A MB | N/A MB | Rust |";
    "| Full Analysis | N/A ms | N/A ms | N/A ms | Rust |";
    "" ].

Example detailed_results_sample :
  exists res, detailed_results sample_results [] = Ok (res, sample_comparison).
Proof. eexists. vm_compute. reflexivity. Qed.

(** C4, as amended: of the four rows Binary Size, Startup Time, Memory Peak
    and Full Analysis, every Go and Rust cell, and the TypeScript cell of
    the last three rows, is the value at results.<name>.<metric> followed
    by its unit, N/A standing for a missing key; the TypeScript cell of
    the Binary Size row is the fixed text N/A (needs runtime). *)
Theorem comparison_table_cells (results : value) (report report' : list string) (res : value) :
  detailed_results results report = Ok (res, report') ->
  report' =
    report ++
    [ "## 📊 Detailed Benchmark Results"; "";
      "| Metric | TypeScript | Go | Rust | Winner |";
      "|--------|-----------|-----|------|--------|";
      "| Binary Size | N/A (needs runtime) | " +:+
        spec_cell results "Go" "binary_size_mb" +:+ " MB | " +:+
        spec_cell results "Rust" "binary_size_mb" +:+ " MB | Rust |";
      "| Startup Time | " +:+
        spec_cell results "TypeScript" "startup_time_ms" +:+ " ms | " +:+
        spec_cell results "Go" "startup_time_ms" +:+ " ms | " +:+
        spec_cell results "Rust" "startup_time_ms" +:+ " ms | Rust |";
      "| Memory Peak | " +:+
        spec_cell results "TypeScript" "memory_peak_mb" +:+ " MB | " +:+
        spec_cell results "Go" "memory_peak_mb" +:+ " MB | " +:+
        spec_cell results "Rust" "memory_peak_mb" +:+ " MB | Rust |";
      "| Full Analysis | " +:+
        spec_cell results "TypeScript" "full_analysis_ms" +:+ " ms | " +:+
        spec_cell results "Go" "full_analysis_ms" +:+ " ms | " +:+
        spec_cell results "Rust" "full_analysis_ms" +:+ " ms | Rust |";
      "" ].
Proof.
  intros H. read_detailed_results H.
  repeat match goal with
  | Hm : metric _ ?name ?key _ = Ok ?v |- _ =>
      rewrite (metric_spec_cell results _ name key v Hlookup Hm); clear Hm
  end.
  reflexivity.
Qed.

Lemma comparison_table_cells_witness :
  exists res,
    detailed_results sample_results [] = Ok (res, sample_comparison) /\
    sample_comparison =
      [] ++
      [ "## 📊 Detailed Benchmark Results"; "";
        "| Metric | TypeScript | Go | Rust | Winner |";
        "|--------|-----------|-----|------|--------|";
        "| Binary Size | N/A (needs runtime) | " +:+
          spec_cell sample_results "Go" "binary_size_mb" +:+ " MB | " +:+
          spec_cell sample_results "Rust" "binary_size_mb" +:+ " MB | Rust |";
        "| Startup Time | " +:+
          spec_cell sample_results "TypeScript" "startup_time_ms" +:+ " ms | " +:+
          spec_cell sample_results "Go" "startup_time_ms" +:+ " ms | " +:+
          spec_cell sample_results "Rust" "startup_time_ms" +:+ " ms | Rust |";
        "| Memory Peak | " +:+
          spec_cell sample_results "TypeScript" "memory_peak_mb" +:+ " MB | " +:+
          spec_cell sample_results "Go" "memory_peak_mb" +:+ " MB | " +:+
          spec_cell sample_results "Rust" "memory_peak_mb" +:+ " MB | Rust |";
        "| Full Analysis | " +:+
          spec_cell sample_results "TypeScript" "full_analysis_ms" +:+ " ms | " +:+
          spec_cell sample_results "Go" "full_analysis_ms" +:+ " ms | " +:+
          spec_cell sample_results "Rust" "full_analysis_ms" +:+ " ms | Rust |";
        "" ].
Proof.
  eexists. split.
  - vm_compute. reflexivity.
  - eapply (comparison_table_cells sample_results [] sample_comparison).
    vm_compute. reflexivity.
Defined.

(** C4, as it was stated, fails on a record whose TypeScript entry has a
    size under both names: the Binary Size row does not show it. *)
Lemma comparison_table_cells_counterexample :
  exists res,
    detailed_results sample_results [] = Ok (res, sample_comparison) /\
    spec_cell sample_results "TypeScript" "package_size_mb" = "45" /\
    spec_cell sample_results "TypeScript" "binary_size_mb" = "45" /\
    In "| Binary Size | N/A (needs runtime) | 12.5 MB | 4 MB | Rust |" sample_comparison /\
    ~ In ("| Binary Size | " +:+ spec_cell sample_results "TypeScript" "package_size_mb" +:+
          " MB | " +:+ spec_cell sample_results "Go" "binary_size_mb" +:+
          " MB | " +:+ spec_cell sample_results "Rust" "binary_size_mb" +:+ " MB | Rust |")
         sample_comparison.
Proof.
  eexists. split; [vm_compute; reflexivity|].
  split; [reflexivity|]. split; [reflexivity|].
  split; [cbn; tauto|].
  vm_compute. intros H.
  repeat (destruct H as [H|H]; [discriminate H|]). exact H.
Qed.

(** C5: in each of the four rows the Winner cell is the text Rust, whatever
    the cells before it hold; with a TypeScript startup time of 100 and a
    Rust one of 50 the Startup Time row shows 100 ms and 50 ms and the
    winner Rust, and it still names Rust when the two times are swapped. *)
Theorem comparison_table_winner_is_rust :
  (forall (results : value) (report report' : list string) (res : value),
     detailed_results results report = Ok (res, report') ->
     exists binary startup memory analysis : string,
       report' =
         report ++
         [ "## 📊 Detailed Benchmark Results"; "";
           "| Metric | TypeScript | Go | Rust | Winner |";
           "|--------|-----------|-----|------|--------|";
           "| Binary Size | " +:+ binary +:+ " | Rust |";
           "| Startup Time | " +:+ startup +:+ " | Rust |";
           "| Memory Peak | " +:+ memory +:+ " | Rust |";
           "| Full Analysis | " +:+ analysis +:+ " | Rust |";
           "" ])
  /\ (exists res report',
        detailed_results
          (VDict [("results", VDict [("TypeScript", VDict [("startup_time_ms", VInt 100)]);
                                     ("Rust", VDict [("startup_time_ms", VInt 50)])])]) [] =
          Ok (res, report') /\
        nth 5 report' "" = "| Startup Time | 100 ms | N/A ms | 50 ms | Rust |")
  /\ (exists res report',
        detailed_results
          (VDict [("results", VDict [("TypeScript", VDict [("startup_time_ms", VInt 50)]);
                                     ("Rust", VDict [("startup_time_ms", VInt 100)])])]) [] =
          Ok (res, report') /\
        nth 5 report' "" = "| Startup Time | 50 ms | N/A ms | 100 ms | Rust |").
Proof.
  split; [|split; (do 2 eexists; split; [vm_compute; reflexivity | reflexivity])].
  intros results report report' res H. read_detailed_results H.
  exists ("N/A (needs runtime) | " +:+ Py.str a1 +:+ " MB | " +:+ Py.str a2 +:+ " MB"),
         (Py.str a3 +:+ " ms | " +:+ Py.str a4 +:+ " ms | " +:+ Py.str a5 +:+ " ms"),
         (Py.str a6 +:+ " MB | " +:+ Py.str a7 +:+ " MB | " +:+ Py.str a8 +:+ " MB"),
         (Py.str a9 +:+ " ms | " +:+ Py.str a10 +:+ " ms | " +:+ Py.str a11 +:+ " ms").
  rewrite !append_assoc. reflexivity.
Qed.

Lemma comparison_table_winner_is_rust_witness :
  exists (res : value) (binary startup memory analysis : string),
    detailed_results sample_results [] = Ok (res, sample_comparison) /\
    sample_comparison =
      [] ++
      [ "## 📊 Detailed Benchmark Results"; "";
        "| Metric | TypeScript | Go | Rust | Winner |";
        "|--------|-----------|-----|------|--------|";
        "| Binary Size | " +:+ binary +:+ " | Rust |";
        "| Startup Time | " +:+ startup +:+ " | Rust |";
        "| Memory Peak | " +:+ memory +:+ " | Rust |";
        "| Full Analysis | " +:+ analysis +:+ " | Rust |";
        "" ].
Proof.
  assert (H : detailed_results sample_results [] =
              Ok (VDict (match sample_results with
                         | VDict d => match dict_lookup "results" d with
                                      | Some (VDict r) => r | _ => [] end
                         | _ => [] end), sample_comparison))
    by (vm_compute; reflexivity).
  destruct (proj1 comparison_table_winner_is_rust sample_results [] sample_comparison _ H)
    as (binary & startup & memory & analysis & Hrows).
  eexists _, binary, startup, memory, analysis. split; [exact H | exact Hrows].
Defined.

(** X11: The comparison table is rendered exactly for the records whose
    [results] entry and implementation entries are mappings where they are
    present; on any other record the block raises AttributeError, the
    [get] of a value that is no mapping. *)
Theorem comparison_table_needs_mappings (results : value) (report : list string) :
  if implementations_are_mappings results
  then exists res report', detailed_results results report = Ok (res, report')
  else detailed_results results report = Raise (AttributeError "get").
Proof.
  destruct (implementations_are_mappings results) eqn:Hshape.
  { by apply detailed_results_succeeds. }
  rewrite frame_detailed_results.
  unfold detailed_results, metric. run_gen.
  destruct results as [| | | | | |d]; try reflexivity.
  cbn in Hshape. cbn.
  destruct (dict_lookup "results" d) as [[| | | | | |res]|];
    try discriminate Hshape; try reflexivity.
  unfold mapping_or_absent in Hshape. cbn.
  destruct (dict_lookup "TypeScript" res) as [[| | | | | |ts]|]; try reflexivity;
  destruct (dict_lookup "Go" res) as [[| | | | | |go]|]; try reflexivity;
  destruct (dict_lookup "Rust" res) as [[| | | | | |rust]|]; try reflexivity;
  discriminate Hshape.
Qed.

(** ** The operation breakdown (lines 99-124) *)

(** A measurement as the data model has it: a number, or nothing *)
Definition measurement (v : value) : bool :=
  match v with
  | VNone | VInt _ | VFloat _ => true
  | _ => false
  end.

Definition zero_or_null (v : value) : bool :=
  match v with
  | VNone => true
  | VInt n => n =? 0
  | VFloat x => Float.is_zero x
  | _ => false
  end.

(** The specification's speedup: [(ts_value - rust_value) / ts_value * 100] *)
Definition spec_speedup (ts_value rust_value : value) : result spec_float :=
  difference ← Py.sub ts_value rust_value;
  ratio ← Py.truediv difference ts_value;
  Py.float_mul_int ratio 100.

(** On measurements, Python's truth value is being neither zero nor null. *)
Lemma truthy_measurement (v : value) :
  measurement v = true -> Py.truthy v = negb (zero_or_null v).
Proof. by destruct v. Qed.

Lemma int_truediv_zero (a : Z) : Float.int_truediv a 0 = Raise ZeroDivisionError.
Proof. by destruct a. Qed.

Lemma float_truediv_zero (x : Py.number) (s : bool) :
  exists e, (fx ← Py.to_float x; fy ← Ok (S754_zero s); Float.div fx fy) = Raise e.
Proof. destruct (Py.to_float x); cbn; eauto. Qed.

(** Dividing by a value that counts as false always raises. *)
Lemma truediv_by_falsy (x v : value) :
  Py.truthy v = false -> exists e, Py.truediv x v = Raise e.
Proof.
  intros Hv. unfold Py.truediv.
  destruct v as [|[]|n|y|s|items|entries]; cbn in Hv; try discriminate Hv; cbn.
  - destruct (Py.as_number x) as [[]|]; eauto.
  - destruct (Py.as_number x) as [[a|a]|]; eauto using int_truediv_zero.
  - apply negb_false_iff, Z.eqb_eq in Hv as ->.
    destruct (Py.as_number x) as [[a|a]|]; eauto using int_truediv_zero.
  - destruct y; cbn in Hv; try discriminate Hv.
    destruct (Py.as_number x) as [[a|a]|]; eauto.
    apply (float_truediv_zero (Py.NInt a) s).
  - destruct (Py.as_number x) as [[]|]; eauto.
  - destruct (Py.as_number x) as [[]|]; eauto.
  - destruct (Py.as_number x) as [[]|]; eauto.
Qed.

(** The row of one operation, for measurements as the data model has
    them: N/A in the last cell when the TypeScript or the Rust one is zero
    or null, and the specification's speedup otherwise. *)
Lemma operation_row_cells
    (res : value) (op_name op_key : string) (ts_val go_val rust_val : value)
    (report : list string) :
  metric res "TypeScript" op_key (VInt 0) = Ok ts_val ->
  metric res "Go" op_key (VInt 0) = Ok go_val ->
  metric res "Rust" op_key (VInt 0) = Ok rust_val ->
  measurement ts_val = true ->
  measurement rust_val = true ->
  let cells :=
    "| " +:+ op_name +:+ " | " +:+ Py.str ts_val +:+ " ms | " +:+
    Py.str go_val +:+ " ms | " +:+ Py.str rust_val +:+ " ms | " in
  operation_row res (op_name, op_key) report =
    if zero_or_null ts_val || zero_or_null rust_val
    then Ok (tt, report ++ [cells +:+ "N/A |"])
    else
      speedup ← spec_speedup ts_val rust_val;
      Ok (tt, report ++ [cells +:+ Float.format_fixed1 speedup +:+ "% faster |"]).
Proof.
  intros Hts Hgo Hrust Mts Mrust cells.
  unfold operation_row. run_gen.
  rewrite Hts, Hgo, Hrust. cbn.
  rewrite (truthy_measurement ts_val Mts), (truthy_measurement rust_val Mrust).
  rewrite <- negb_orb.
  subst cells.
  destruct (zero_or_null ts_val || zero_or_null rust_val); cbn.
  { rewrite !append_assoc. reflexivity. }
  unfold spec_speedup. run_gen.
  destruct (Py.sub ts_val rust_val) as [difference|]; cbn; [|reflexivity].
  destruct (Py.truediv difference ts_val) as [ratio|]; cbn; [|reflexivity].
  destruct (Py.float_mul_int ratio 100) as [speedup|]; cbn; [|reflexivity].
  rewrite !append_assoc. reflexivity.
Qed.

(** ** Category labels (line 59) *)

Lemma contains_underscore_cons (c : ascii) (s : string) :
  Str.contains "_" (String c s) =
    (if ascii_dec "_"%char c then true else false) || Str.contains "_" s.
Proof.
  change (Str.contains "_" (String c s))
    with (String.prefix "_" (String c s) || Str.contains "_" s).
  f_equal. cbn [String.prefix]. destruct (ascii_dec "_" c); [by destruct s | done].
Qed.

Lemma replace_underscore_cons (c : ascii) (s : string) :
  Str.replace "_" " " (String c s) =
    String (if ascii_dec "_"%char c then " "%char else c) (Str.replace "_" " " s).
Proof.
  unfold Str.replace.
  change (Str.replace_from "_" " " 0 (String c s))
    with (if String.prefix "_" (String c s)
          then " " +:+ Str.replace_from "_" " " 0 s
          else String c (Str.replace_from "_" " " 0 s)).
  cbn [String.prefix]. destruct (ascii_dec "_" c); [by destruct s | done].
Qed.

Lemma cased_is_not_underscore (c : ascii) :
  Str.to_upper c = "_"%char \/ Str.to_lower c = "_"%char -> c = "_"%char.
Proof.
  destruct c as [[] [] [] [] [] [] [] []]; vm_compute; intros [H|H]; congruence.
Qed.

Lemma title_from_keeps_underscores_out (cased : bool) (s : string) :
  Str.contains "_" s = false -> Str.contains "_" (Str.title_from cased s) = false.
Proof.
  revert cased. induction s as [|c s IH]; intros cased; [done|].
  rewrite contains_underscore_cons. intros [Hc Hs]%orb_false_iff.
  assert (Hne : c <> "_"%char) by (by destruct (ascii_dec "_" c) as [<-|]).
  cbn [Str.title_from].
  destruct (Str.is_lower c); [|destruct (Str.is_upper c)];
    rewrite contains_underscore_cons, IH by done;
    rewrite orb_false_r;
    match goal with |- (if ascii_dec _ ?x then _ else _) = _ =>
      destruct (ascii_dec "_" x) as [Heq|]; [|done]
    end;
    exfalso; apply Hne; destruct cased;
    try done; apply cased_is_not_underscore; auto.
Qed.

Lemma length_title_from (cased : bool) (s : string) :
  String.length (Str.title_from cased s) = String.length s.
Proof.
  revert cased. induction s as [|c s IH]; intros cased; [done|].
  cbn [Str.title_from].
  by destruct (Str.is_lower c); [|destruct (Str.is_upper c)];
    cbn [String.length]; rewrite IH.
Qed.

Lemma isascii_replace_underscore (s : string) :
  Str.isascii s = true -> Str.isascii (Str.replace "_" " " s) = true.
Proof.
  induction s as [|c s IH]; [done|].
  rewrite replace_underscore_cons. cbn [Str.isascii].
  intros [Hc Hs]%andb_true_iff. rewrite (IH Hs), andb_true_r.
  by destruct (ascii_dec "_" c).
Qed.

(** X10: For a category key of ASCII characters, the label in its row of
    the performance summary is as long as the key and has no underscore
    left in it. *)
Theorem category_label_has_no_underscore
    (unicode_title : string -> string) (category : string) (winner : value) :
  Str.isascii category = true ->
  exists label : string,
    winner_row unicode_title (category, winner) =
      "| " +:+ label +:+ " | **" +:+ Py.str winner +:+ "** |" /\
    String.length label = String.length category /\
    Str.contains "_" label = false.
Proof.
  intros Hascii.
  exists (Str.title_from false (Str.replace "_" " " category)).
  split; [|split].
  - unfold winner_row, Str.title.
    by rewrite (isascii_replace_underscore category Hascii).
  - rewrite length_title_from. clear Hascii.
    induction category as [|c s IH]; [done|].
    rewrite replace_underscore_cons. cbn [String.length]. by rewrite IH.
  - apply title_from_keeps_underscores_out. clear Hascii.
    induction category as [|c s IH]; [done|].
    rewrite replace_underscore_cons, contains_underscore_cons, IH.
    by destruct (ascii_dec "_" c) as [<-|]; [|destruct (ascii_dec "_" c)].
Qed.

Lemma category_label_has_no_underscore_witness :
  Str.isascii "binary_size" = true /\
  exists label : string,
    winner_row no_unicode_title ("binary_size", VStr "Rust") =
      "| " +:+ label +:+ " | **" +:+ Py.str (VStr "Rust") +:+ "** |" /\
    String.length label = String.length "binary_size" /\
    Str.contains "_" label = false.
Proof.
  split; [reflexivity|].
  exact (category_label_has_no_underscore no_unicode_title "binary_size" (VStr "Rust") eq_refl).
Defined.

(** ** The report as a whole *)

(** Everything after the title block: lines 25-210 *)
Definition report_tail (unicode_title : string -> string) (results : value) : gen unit :=
  test_environment results;;
  test_details results;;
  performance_summary unicode_title results;;
  res ← detailed_results results;
  performance_breakdown res;;
  key_insights results;;
  recommendations;;
  conclusion results.

Lemma frame_report_tail unicode_title results : frame (report_tail unicode_title results).
Proof.
  unfold report_tail.
  repeat lazymatch goal with
  | |- frame (mbind _ _) => apply frame_bind; [|intros]
  | |- frame (test_environment _) => apply frame_test_environment
  | |- frame (test_details _) => apply frame_test_details
  | |- frame (performance_summary _ _) => apply frame_performance_summary
  | |- frame (detailed_results _) => apply frame_detailed_results
  | |- frame (performance_breakdown _) => apply frame_performance_breakdown
  | |- frame (key_insights _) => apply frame_key_insights
  | |- frame recommendations => apply frame_recommendations
  | |- frame (conclusion _) => apply frame_conclusion
  end.
Qed.

(** The report is the lines of its nine blocks, one block after the other. *)
Lemma report_lines_blocks (unicode_title : string -> string) (results : value) (now : datetime) :
  report_lines unicode_title results now =
    ('(_, title) ← title_block results now [];
     '(_, environment) ← test_environment results [];
     '(_, details) ← test_details results [];
     '(_, summary) ← performance_summary unicode_title results [];
     '(res, comparison) ← detailed_results results [];
     '(_, breakdown) ← performance_breakdown res [];
     '(_, insights) ← key_insights results [];
     '(_, advice) ← recommendations [];
     '(_, closing) ← conclusion results [];
     Ok (title ++ environment ++ details ++ summary ++ comparison ++
         breakdown ++ insights ++ advice ++ closing)).
Proof.
  unfold report_lines, report_body.
  unfold mbind, gen_bind, result_bind.
  destruct (title_block results now []) as [[[] title]|]; [|done].
  rewrite (frame_test_environment results title); unfold mbind, result_bind.
  destruct (test_environment results []) as [[[] environment]|]; [|done].
  rewrite (frame_test_details results); unfold mbind, result_bind.
  destruct (test_details results []) as [[[] details]|]; [|done].
  rewrite (frame_performance_summary unicode_title results); unfold mbind, result_bind.
  destruct (performance_summary unicode_title results []) as [[[] summary]|]; [|done].
  rewrite (frame_detailed_results results); unfold mbind, result_bind.
  destruct (detailed_results results []) as [[res comparison]|]; [|done].
  rewrite (frame_performance_breakdown res); unfold mbind, result_bind.
  destruct (performance_breakdown res []) as [[[] breakdown]|]; [|done].
  rewrite (frame_key_insights results); unfold mbind, result_bind.
  destruct (key_insights results []) as [[[] insights]|]; [|done].
  rewrite frame_recommendations; unfold mbind, result_bind.
  destruct (recommendations []) as [[[] advice]|]; [|done].
  rewrite (frame_conclusion results); unfold mbind, result_bind.
  destruct (conclusion results []) as [[[] closing]|]; [|done].
  by rewrite <- !app_assoc.
Qed.

(** The clock reaches the report through its third line and nowhere else. *)
Lemma report_lines_clock (unicode_title : string -> string) (results : value) (now : datetime) :
  report_lines unicode_title results now =
    (timestamp ← Py.get results "timestamp" (VStr "N/A");
     '(_, rest) ← report_tail unicode_title results [];
     Ok ([ "# PHP MCP Server Benchmark Report"; "";
           "**Generated:** " +:+ strftime now;
           "**Test Date:** " +:+ Py.str timestamp; "" ] ++ rest)).
Proof.
  unfold report_lines, report_body. fold (report_tail unicode_title results).
  unfold title_block. run_gen.
  destruct (Py.get results "timestamp" (VStr "N/A")) as [timestamp|]; cbn; [|reflexivity].
  rewrite (frame_report_tail unicode_title results).
  by destruct (report_tail unicode_title results []) as [[[] rest]|].
Qed.

Definition noon : datetime :=
  {| year := 2025; month := 6; day := 1; hour := 12; minute := 0; second := 0 |}.

Definition one_second_later : datetime :=
  {| year := 2025; month := 6; day := 1; hour := 12; minute := 0; second := 1 |}.

(** C7, as it was stated, fails: the same record rendered at two times a
    second apart gives two different strings. *)
Lemma render_twice_counterexample :
  generate_markdown_report no_unicode_title (VDict []) noon <>
  generate_markdown_report no_unicode_title (VDict []) one_second_later.
Proof.
  intros H.
  apply (f_equal (fun r => match r with
                           | Ok s => String.get 68 s
                           | Raise _ => None
                           end)) in H.
  vm_compute in H. discriminate H.
Qed.

(** C7, as amended: rendering reads the clock, and nothing else outside
    its argument.  Two renderings of one record either raise the same
    exception or return two strings that are equal but for the time on
    the line Generated. *)
Theorem render_differs_in_generated_line_only
    (unicode_title : string -> string) (results : value) (now1 now2 : datetime) :
  match generate_markdown_report unicode_title results now1,
        generate_markdown_report unicode_title results now2 with
  | Ok text1, Ok text2 =>
      exists rest : string,
        text1 = "# PHP MCP Server Benchmark Report" +:+ Str.newline +:+ Str.newline +:+
                "**Generated:** " +:+ strftime now1 +:+ Str.newline +:+ rest /\
        text2 = "# PHP MCP Server Benchmark Report" +:+ Str.newline +:+ Str.newline +:+
                "**Generated:** " +:+ strftime now2 +:+ Str.newline +:+ rest
  | Raise e1, Raise e2 => e1 = e2
  | _, _ => False
  end.
Proof.
  unfold generate_markdown_report. rewrite !report_lines_clock.
  destruct (Py.get results "timestamp" (VStr "N/A")) as [timestamp|]; cbn; [|reflexivity].
  destruct (report_tail unicode_title results []) as [[[] rest]|]; cbn; [|reflexivity].
  exists (Str.join Str.newline (("**Test Date:** " +:+ Py.str timestamp) :: "" :: rest)).
  split; reflexivity.
Qed.

(** C2 fails on the code: a summary entry without its [language] key, and
    a ranking entry without its [rank] key, make rendering raise, where
    every other lookup of the report falls back on N/A. *)
Theorem render_raises_on_incomplete_summary
    (unicode_title : string -> string) (now : datetime) :
  generate_markdown_report unicode_title
    (VDict [("summary", VDict [("fastest_startup", VDict [("time_ms", VInt 12)])])]) now =
    Raise (KeyError "language")
  /\ generate_markdown_report unicode_title
       (VDict [("summary", VDict [("performance_ranking", VList [VDict [("language", VStr "Rust")]])])])
       now =
     Raise (KeyError "rank")
  /\ exists text, generate_markdown_report unicode_title (VDict []) now = Ok text.
Proof.
  split; [|split].
  - unfold generate_markdown_report. rewrite report_lines_clock. reflexivity.
  - unfold generate_markdown_report. rewrite report_lines_clock. reflexivity.
  - unfold generate_markdown_report. rewrite report_lines_clock. eexists. reflexivity.
Qed.

(** ** The operation breakdown in the report (lines 71 and 99-124) *)

(** The specification's measurement of an operation: the value at
    [results.<name>.<op_key>], and 0 when a key on the way to it is
    missing. *)
Definition spec_measurement (results : value) (name op_key : string) : value :=
  match results with
  | VDict d =>
      match dict_lookup "results" d with
      | Some (VDict res) =>
          match dict_lookup name res with
          | Some (VDict impl) =>
              match dict_lookup op_key impl with
              | Some v => v
              | None => VInt 0
              end
          | _ => VInt 0
          end
      | _ => VInt 0
      end
  | _ => VInt 0
  end.

(** The specification's speedup cell: N/A when the TypeScript or the Rust
    value is zero or null, the formatted speedup otherwise. *)
Definition spec_speedup_cell (ts_value rust_value : value) : result string :=
  if zero_or_null ts_value || zero_or_null rust_value then Ok "N/A"
  else
    speedup ← spec_speedup ts_value rust_value;
    Ok (Float.format_fixed1 speedup +:+ "% faster").

(** The row of an operation, from the record alone *)
Definition spec_operation_row (results : value) (op_name op_key : string) : result string :=
  let ts_value := spec_measurement results "TypeScript" op_key in
  let go_value := spec_measurement results "Go" op_key in
  let rust_value := spec_measurement results "Rust" op_key in
  cell ← spec_speedup_cell ts_value rust_value;
  Ok ("| " +:+ op_name +:+ " | " +:+ Py.str ts_value +:+ " ms | " +:+
      Py.str go_value +:+ " ms | " +:+ Py.str rust_value +:+ " ms | " +:+ cell +:+ " |").

(** The TypeScript and Rust values of an operation are measurements as the
    data model has them: numbers, or null. *)
Definition measured (results : value) (op_key : string) : bool :=
  measurement (spec_measurement results "TypeScript" op_key) &&
  measurement (spec_measurement results "Rust" op_key).

(** Where one lookup of an implementation's metrics returned, every lookup
    of an operation returns the specification's measurement. *)
Lemma metric_spec_measurement results res name key0 default0 v0 :
  Py.get results "results" (VDict []) = Ok res ->
  metric res name key0 default0 = Ok v0 ->
  forall op_key, metric res name op_key (VInt 0) = Ok (spec_measurement results name op_key).
Proof.
  unfold metric, spec_measurement.
  destruct results as [| | | | | |d]; cbn; try done.
  intros [= <-].
  destruct (dict_lookup "results" d) as [[| | | | | |res]|]; cbn; try done.
  destruct (dict_lookup name res) as [[| | | | | |impl]|]; cbn; try done.
Qed.

(** The value that [detailed_results] hands to the breakdown is the
    [results] entry of the record. *)
Lemma detailed_results_measurements results report res report' :
  detailed_results results report = Ok (res, report') ->
  forall name, In name ["TypeScript"; "Go"; "Rust"] ->
  forall op_key, metric res name op_key (VInt 0) = Ok (spec_measurement results name op_key).
Proof.
  intros H. read_detailed_results H.
  intros name [<-|[<-|[<-|[]]]] op_key;
    eapply metric_spec_measurement; eauto.
Qed.

Lemma operation_row_spec results res op_name op_key report :
  (forall name, In name ["TypeScript"; "Go"; "Rust"] ->
   forall key, metric res name key (VInt 0) = Ok (spec_measurement results name key)) ->
  measured results op_key = true ->
  operation_row res (op_name, op_key) report =
    (row ← spec_operation_row results op_name op_key; Ok (tt, report ++ [row])).
Proof.
  intros Hres [Mts Mrust]%andb_true_iff.
  rewrite (operation_row_cells res op_name op_key _ _ _ report
             (Hres "TypeScript" ltac:(cbn; tauto) op_key)
             (Hres "Go" ltac:(cbn; tauto) op_key)
             (Hres "Rust" ltac:(cbn; tauto) op_key) Mts Mrust).
  unfold spec_operation_row, spec_speedup_cell.
  destruct (zero_or_null _ || zero_or_null _); cbn.
  { rewrite !append_assoc. reflexivity. }
  destruct (spec_speedup _ _) as [speedup|]; cbn; [|reflexivity].
  rewrite !append_assoc. reflexivity.
Qed.

(** What the breakdown block appends, from the record alone *)
Lemma performance_breakdown_rows results res breakdown :
  (forall name, In name ["TypeScript"; "Go"; "Rust"] ->
   forall key, metric res name key (VInt 0) = Ok (spec_measurement results name key)) ->
  measured results "dependency_analysis_ms" = true ->
  measured results "psr4_validation_ms" = true ->
  measured results "namespace_detection_ms" = true ->
  measured results "security_audit_ms" = true ->
  measured results "license_analysis_ms" = true ->
  performance_breakdown res [] = Ok (tt, breakdown) ->
  exists r1 r2 r3 r4 r5 : string,
    breakdown =
      [ "## 🎯 Performance Breakdown by Operation"; "";
        "| Operation | TypeScript | Go | Rust | Speedup (Rust vs TS) |";
        "|-----------|-----------|-----|------|---------------------|";
        r1; r2; r3; r4; r5; "" ] /\
    spec_operation_row results "Dependency Analysis" "dependency_analysis_ms" = Ok r1 /\
    spec_operation_row results "PSR-4 Validation" "psr4_validation_ms" = Ok r2 /\
    spec_operation_row results "Namespace Detection" "namespace_detection_ms" = Ok r3 /\
    spec_operation_row results "Security Audit" "security_audit_ms" = Ok r4 /\
    spec_operation_row results "License Analysis" "license_analysis_ms" = Ok r5.
Proof.
  intros Hres M1 M2 M3 M4 M5.
  unfold performance_breakdown, operations. cbn [for_each].
  unfold mbind, mret, gen_bind, gen_ret. cbn [append].
  rewrite (operation_row_spec results res _ _ _ Hres M1).
  unfold mbind at 1, result_bind at 1.
  destruct (spec_operation_row results "Dependency Analysis" _) as [r1|]; [|done].
  rewrite (operation_row_spec results res _ _ _ Hres M2).
  unfold mbind at 1, result_bind at 1.
  destruct (spec_operation_row results "PSR-4 Validation" _) as [r2|]; [|done].
  rewrite (operation_row_spec results res _ _ _ Hres M3).
  unfold mbind at 1, result_bind at 1.
  destruct (spec_operation_row results "Namespace Detection" _) as [r3|]; [|done].
  rewrite (operation_row_spec results res _ _ _ Hres M4).
  unfold mbind at 1, result_bind at 1.
  destruct (spec_operation_row results "Security Audit" _) as [r4|]; [|done].
  rewrite (operation_row_spec results res _ _ _ Hres M5).
  unfold mbind at 1, result_bind at 1.
  destruct (spec_operation_row results "License Analysis" _) as [r5|]; [|done].
  cbn. intros [= <-]. by exists r1, r2, r3, r4, r5.
Qed.

(** C1: in a rendered report the breakdown table has the rows of the five
    operations, each made from the measurements that the record holds at
    results.TypeScript, results.Go and results.Rust under the key of the
    operation, with 0 for a missing one.  With TypeScript and Rust values
    that are numbers or null, the last cell of a row is N/A when one of the
    two is zero or null, and no division takes place then, which would
    raise for such a TypeScript value; otherwise it is
    [(ts - rust) / ts * 100] with one decimal and the words % faster.
    TypeScript 100 and Rust 20 give 80.0% faster; TypeScript 0 gives N/A
    whatever the Rust value. *)
Theorem breakdown_speedup_cells (unicode_title : string -> string) :
  (forall (results : value) (now : datetime) (lines : list string),
     report_lines unicode_title results now = Ok lines ->
     measured results "dependency_analysis_ms" = true ->
     measured results "psr4_validation_ms" = true ->
     measured results "namespace_detection_ms" = true ->
     measured results "security_audit_ms" = true ->
     measured results "license_analysis_ms" = true ->
     exists (before after : list string) (r1 r2 r3 r4 r5 : string),
       lines =
         before ++
         [ "## 🎯 Performance Breakdown by Operation"; "";
           "| Operation | TypeScript | Go | Rust | Speedup (Rust vs TS) |";
           "|-----------|-----------|-----|------|---------------------|";
           r1; r2; r3; r4; r5; "" ] ++
         after /\
       spec_operation_row results "Dependency Analysis" "dependency_analysis_ms" = Ok r1 /\
       spec_operation_row results "PSR-4 Validation" "psr4_validation_ms" = Ok r2 /\
       spec_operation_row results "Namespace Detection" "namespace_detection_ms" = Ok r3 /\
       spec_operation_row results "Security Audit" "security_audit_ms" = Ok r4 /\
       spec_operation_row results "License Analysis" "license_analysis_ms" = Ok r5)
  /\ (forall ts_value x : value,
        measurement ts_value = true -> zero_or_null ts_value = true ->
        exists e, Py.truediv x ts_value = Raise e)
  /\ (forall now : datetime,
        exists lines,
          report_lines unicode_title
            (VDict [("results",
                     VDict [("TypeScript", VDict [("dependency_analysis_ms", VInt 100)]);
                            ("Rust", VDict [("dependency_analysis_ms", VInt 20)])])])
            now = Ok lines /\
          nth 26 lines "" = "| Dependency Analysis | 100 ms | 0 ms | 20 ms | 80.0% faster |")
  /\ (forall (now : datetime) (rust_value : value),
        exists lines,
          report_lines unicode_title
            (VDict [("results",
                     VDict [("TypeScript", VDict [("dependency_analysis_ms", VInt 0)]);
                            ("Rust", VDict [("dependency_analysis_ms", rust_value)])])])
            now = Ok lines /\
          nth 26 lines "" =
            "| Dependency Analysis | 0 ms | 0 ms | " +:+ Py.str rust_value +:+ " ms | N/A |").
Proof.
  split; [|split; [|split]].
  - intros results now lines H M1 M2 M3 M4 M5.
    rewrite report_lines_blocks in H. unfold mbind, result_bind in H.
    destruct (title_block results now []) as [[[] title]|]; [|done].
    destruct (test_environment results []) as [[[] environment]|]; [|done].
    destruct (test_details results []) as [[[] details]|]; [|done].
    destruct (performance_summary unicode_title results []) as [[[] summary]|]; [|done].
    destruct (detailed_results results []) as [[res comparison]|] eqn:Hcomparison; [|done].
    destruct (performance_breakdown res []) as [[[] breakdown]|] eqn:Hbreakdown; [|done].
    destruct (key_insights results []) as [[[] insights]|]; [|done].
    destruct (recommendations []) as [[[] advice]|]; [|done].
    destruct (conclusion results []) as [[[] closing]|]; [|done].
    injection H as [= <-].
    destruct (performance_breakdown_rows results res breakdown
                (detailed_results_measurements results [] res comparison Hcomparison)
                M1 M2 M3 M4 M5 Hbreakdown)
      as (r1 & r2 & r3 & r4 & r5 & -> & Hrows).
    exists (title ++ environment ++ details ++ summary ++ comparison),
           (insights ++ advice ++ closing), r1, r2, r3, r4, r5.
    split; [|exact Hrows].
    by rewrite <- !app_assoc.
  - intros ts_value x Mts Hzero. apply truediv_by_falsy.
    rewrite (truthy_measurement ts_value Mts), Hzero. reflexivity.
  - intros now. eexists. split; [vm_compute; reflexivity | reflexivity].
  - intros now rust_value. eexists. split.
    + rewrite report_lines_clock. reflexivity.
    + reflexivity.
Qed.

Lemma breakdown_speedup_cells_witness :
  exists lines : list string,
    report_lines no_unicode_title sample_results noon = Ok lines /\
    measured sample_results "dependency_analysis_ms" = true /\
    measured sample_results "psr4_validation_ms" = true /\
    measured sample_results "namespace_detection_ms" = true /\
    measured sample_results "security_audit_ms" = true /\
    measured sample_results "license_analysis_ms" = true /\
    exists (before after : list string) (r1 r2 r3 r4 r5 : string),
      lines =
        before ++
        [ "## 🎯 Performance Breakdown by Operation"; "";
          "| Operation | TypeScript | Go | Rust | Speedup (Rust vs TS) |";
          "|-----------|-----------|-----|------|---------------------|";
          r1; r2; r3; r4; r5; "" ] ++
        after /\
      spec_operation_row sample_results "Dependency Analysis" "dependency_analysis_ms" = Ok r1 /\
      spec_operation_row sample_results "PSR-4 Validation" "psr4_validation_ms" = Ok r2 /\
      spec_operation_row sample_results "Namespace Detection" "namespace_detection_ms" = Ok r3 /\
      spec_operation_row sample_results "Security Audit" "security_audit_ms" = Ok r4 /\
      spec_operation_row sample_results "License Analysis" "license_analysis_ms" = Ok r5.
Proof.
  eexists.
  assert (Hlines : report_lines no_unicode_title sample_results noon = Ok _)
    by (vm_compute; reflexivity).
  split; [exact Hlines|].
  do 5 (split; [reflexivity|]).
  exact (proj1 (breakdown_speedup_cells no_unicode_title) sample_results noon _ Hlines
           eq_refl eq_refl eq_refl eq_refl eq_refl).
Defined.

(** The first row of the breakdown of the sample record *)
Example spec_operation_row_sample :
  spec_operation_row sample_results "Dependency Analysis" "dependency_analysis_ms" =
    Ok "| Dependency Analysis | 100 ms | 0 ms | 20 ms | 80.0% faster |".
Proof. vm_compute. reflexivity. Qed.

(** ** The ranking of the conclusion (lines 188-210) *)

(** A loop whose body appends one line for each element, and raises for
    none, appends those lines in the order of the list. *)
Lemma for_each_lines {A : Type} (body : A -> gen unit) (xs : list A)
    (rows : list string) (report : list string) :
  Forall2 (fun x row => forall r, body x r = Ok (tt, r ++ [row])) xs rows ->
  for_each xs body report = Ok (tt, report ++ rows).
Proof.
  intros Hrows. revert report.
  induction Hrows as [|x row xs rows Hrow _ IH]; intros report; cbn [for_each].
  - cbn. by rewrite app_nil_r.
  - unfold mbind, gen_bind. rewrite Hrow, IH. by rewrite <- app_assoc.
Qed.

(** The line of a ranking entry whose rank is an integer *)
Definition ranking_row_text (rank : Z) (lang score : value) : string :=
  Str.int_str rank +:+ ". " +:+
  (if rank =? 1 then "🥇" else if rank =? 2 then "🥈" else "🥉") +:+
  " **" +:+ Py.str lang +:+ "** (Score: " +:+ Py.str score +:+ "/100)".

Definition ranking_entry (entry : value) (row : string) : Prop :=
  exists (e : pydict) (rank : Z) (lang score : value),
    entry = VDict e /\
    dict_lookup "rank" e = Some (VInt rank) /\
    dict_lookup "language" e = Some lang /\
    dict_lookup "score" e = Some score /\
    row = ranking_row_text rank lang score.

(** X12: The ranking is printed in the order of the list, one line for each
    entry and none left out or sorted: rank 1 gets the gold marker, rank 2
    the silver one, and every other rank, zero and negative ones too,
    the bronze one. *)
Theorem ranking_rows_follow_the_list
    (d summary : pydict) (entries : list value) (rows report : list string) :
  dict_lookup "summary" d = Some (VDict summary) ->
  dict_lookup "performance_ranking" summary = Some (VList entries) ->
  Forall2 ranking_entry entries rows ->
  conclusion (VDict d) report =
    Ok (tt, report ++
            ["## 🎉 Conclusion"; ""; "**Performance Ranking:**"] ++ rows ++
            [""; "**Final Recommendation:**";
             "- Use **Rust** for the Dependency Buster production deployment";
             "- The performance gains (9x faster) and memory savings (85% less) justify the investment";
             "- Keep TypeScript for rapid prototyping and experiments"; ""]).
Proof.
  intros Hsummary Hranking Hrows.
  rewrite frame_conclusion. unfold conclusion. run_gen.
  rewrite Hsummary. cbn. rewrite Hranking. cbn.
  rewrite (for_each_lines ranking_row entries rows).
  - cbn. by rewrite <- !app_assoc.
  - eapply Forall2_impl; [exact Hrows|].
    intros entry row (e & rank & lang & score & -> & Hrank & Hlang & Hscore & ->) r.
    unfold ranking_row. run_gen. rewrite Hrank, Hlang, Hscore. cbn.
    unfold ranking_row_text.
    change (Py.eq_int (VInt rank) 1) with (rank =? 1).
    change (Py.eq_int (VInt rank) 2) with (rank =? 2).
    by destruct (rank =? 1); [|destruct (rank =? 2)].
Qed.

Lemma ranking_rows_follow_the_list_witness :
  let summary :=
    [("performance_ranking",
      VList [ VDict [("rank", VInt 2); ("language", VStr "Go"); ("score", VInt 80)];
              VDict [("rank", VInt 1); ("language", VStr "Rust"); ("score", VInt 95)];
              VDict [("rank", VInt 7); ("language", VStr "TypeScript"); ("score", VInt 60)] ])] in
  let d := [("summary", VDict summary)] in
  let rows :=
    [ranking_row_text 2 (VStr "Go") (VInt 80);
     ranking_row_text 1 (VStr "Rust") (VInt 95);
     ranking_row_text 7 (VStr "TypeScript") (VInt 60)] in
  dict_lookup "summary" d = Some (VDict summary) /\
  rows = ["2. 🥈 **Go** (Score: 80/100)"; "1. 🥇 **Rust** (Score: 95/100)";
          "7. 🥉 **TypeScript** (Score: 60/100)"] /\
  conclusion (VDict d) [] =
    Ok (tt, [] ++
            ["## 🎉 Conclusion"; ""; "**Performance Ranking:**"] ++ rows ++
            [""; "**Final Recommendation:**";
             "- Use **Rust** for the Dependency Buster production deployment";
             "- The performance gains (9x faster) and memory savings (85% less) justify the investment";
             "- Keep TypeScript for rapid prototyping and experiments"; ""]).
Proof.
  intros summary d rows. split; [reflexivity|]. split; [reflexivity|].
  apply (ranking_rows_follow_the_list d summary _ rows [] eq_refl eq_refl).
  repeat constructor; eexists _, _, _, _; repeat split; reflexivity.
Defined.

(** ** More on the operation breakdown *)

(** X13: Equal TypeScript and Rust times give a speedup of zero: 0.0% faster,
    and -0.0% faster when the common time is negative, the quotient of
    zero by a negative integer being the float minus zero. *)
Theorem equal_times_show_zero_speedup
    (res : value) (op_name op_key : string) (n : Z) (go_val : value) (report : list string) :
  metric res "TypeScript" op_key (VInt 0) = Ok (VInt n) ->
  metric res "Go" op_key (VInt 0) = Ok go_val ->
  metric res "Rust" op_key (VInt 0) = Ok (VInt n) ->
  n <> 0 ->
  operation_row res (op_name, op_key) report =
    Ok (tt, report ++
            ["| " +:+ op_name +:+ " | " +:+ Str.int_str n +:+ " ms | " +:+
             Py.str go_val +:+ " ms | " +:+ Str.int_str n +:+ " ms | " +:+
             (if n <? 0 then "-0.0" else "0.0") +:+ "% faster |"]).
Proof.
  intros Hts Hgo Hrust Hn. unfold operation_row. run_gen.
  rewrite Hts, Hgo, Hrust. cbn.
  destruct (Z.eqb_spec n 0) as [|_]; [done|]. cbn.
  rewrite Z.sub_diag.
  by destruct n.
Qed.

Lemma equal_times_show_zero_speedup_witness :
  let res :=
    VDict [("TypeScript", VDict [("security_audit_ms", VInt 40)]);
           ("Rust", VDict [("security_audit_ms", VInt 40)])] in
  metric res "TypeScript" "security_audit_ms" (VInt 0) = Ok (VInt 40) /\
  metric res "Go" "security_audit_ms" (VInt 0) = Ok (VInt 0) /\
  metric res "Rust" "security_audit_ms" (VInt 0) = Ok (VInt 40) /\
  40 <> 0 /\
  operation_row res ("Security Audit", "security_audit_ms") [] =
    Ok (tt, ["| Security Audit | 40 ms | 0 ms | 40 ms | 0.0% faster |"]).
Proof.
  intros res. do 3 (split; [reflexivity|]).
  assert (Hn : 40 <> 0) by lia.
  split; [exact Hn|].
  exact (equal_times_show_zero_speedup res "Security Audit" "security_audit_ms" 40
           (VInt 0) [] eq_refl eq_refl eq_refl Hn).
Defined.

(** X14: Measurements given as text make the row raise TypeError: two strings
    that are not empty pass the guard and cannot be subtracted. *)
Theorem text_measurements_raise_type_error
    (res : value) (op_name op_key ts rust : string) (go_val : value) (report : list string) :
  metric res "TypeScript" op_key (VInt 0) = Ok (VStr ts) ->
  metric res "Go" op_key (VInt 0) = Ok go_val ->
  metric res "Rust" op_key (VInt 0) = Ok (VStr rust) ->
  ts <> EmptyString -> rust <> EmptyString ->
  operation_row res (op_name, op_key) report = Raise TypeError.
Proof.
  intros Hts Hgo Hrust Hts_text Hrust_text. unfold operation_row. run_gen.
  rewrite Hts, Hgo, Hrust. cbn.
  destruct (String.eqb_spec ts "") as [|_]; [done|].
  destruct (String.eqb_spec rust "") as [|_]; [done|].
  reflexivity.
Qed.

Lemma text_measurements_raise_type_error_witness :
  let res :=
    VDict [("TypeScript", VDict [("security_audit_ms", VStr "40")]);
           ("Rust", VDict [("security_audit_ms", VStr "12")])] in
  metric res "TypeScript" "security_audit_ms" (VInt 0) = Ok (VStr "40") /\
  metric res "Go" "security_audit_ms" (VInt 0) = Ok (VInt 0) /\
  metric res "Rust" "security_audit_ms" (VInt 0) = Ok (VStr "12") /\
  "40" <> EmptyString /\ "12" <> EmptyString /\
  operation_row res ("Security Audit", "security_audit_ms") [] = Raise TypeError.
Proof.
  intros res. do 3 (split; [reflexivity|]).
  assert (H40 : "40" <> EmptyString) by discriminate.
  assert (H12 : "12" <> EmptyString) by discriminate.
  split; [exact H40|]. split; [exact H12|].
  exact (text_measurements_raise_type_error res "Security Audit" "security_audit_ms"
           "40" "12" (VInt 0) [] eq_refl eq_refl eq_refl H40 H12).
Defined.

(** One operation appends one line, which opens with the name of the
    operation. *)
Lemma operation_row_one_line (res : value) (op_name op_key : string)
    (report report' : list string) :
  operation_row res (op_name, op_key) report = Ok (tt, report') ->
  exists cells, report' = report ++ ["| " +:+ op_name +:+ " | " +:+ cells].
Proof.
  unfold operation_row. run_gen.
  destruct (metric res "TypeScript" op_key (VInt 0)) as [ts_val|]; cbn; [|done].
  destruct (metric res "Go" op_key (VInt 0)) as [go_val|]; cbn; [|done].
  destruct (metric res "Rust" op_key (VInt 0)) as [rust_val|]; cbn; [|done].
  destruct (Py.truthy ts_val && Py.truthy rust_val); cbn.
  - destruct (Py.sub ts_val rust_val) as [difference|]; cbn; [|done].
    destruct (Py.truediv difference ts_val) as [ratio|]; cbn; [|done].
    destruct (Py.float_mul_int ratio 100) as [speedup|]; cbn; [|done].
    intros [= <-]. eexists. reflexivity.
  - intros [= <-]. eexists. reflexivity.
Qed.

(** X15: Whenever the breakdown is rendered it has exactly five rows, those of
    the five operations in their fixed order, between the head of the
    table and a blank line. *)
Theorem breakdown_has_five_rows (res : value) (report report' : list string) :
  performance_breakdown res report = Ok (tt, report') ->
  exists c1 c2 c3 c4 c5 : string,
    report' =
      report ++
      [ "## 🎯 Performance Breakdown by Operation"; "";
        "| Operation | TypeScript | Go | Rust | Speedup (Rust vs TS) |";
        "|-----------|-----------|-----|------|---------------------|";
        "| Dependency Analysis | " +:+ c1;
        "| PSR-4 Validation | " +:+ c2;
        "| Namespace Detection | " +:+ c3;
        "| Security Audit | " +:+ c4;
        "| License Analysis | " +:+ c5;
        "" ].
Proof.
  rewrite frame_performance_breakdown.
  unfold performance_breakdown, operations. cbn [for_each].
  unfold mbind, mret, gen_bind, gen_ret, result_bind. cbn [append].
  repeat match goal with
  | |- context [operation_row res (?name, ?key) ?r] =>
      let Hrow := fresh "Hrow" in
      destruct (operation_row res (name, key) r) as [[[] ?]|] eqn:Hrow; [|done];
      apply operation_row_one_line in Hrow as [? ->]
  end.
  cbn. intros [= <-]. eexists _, _, _, _, _. reflexivity.
Qed.

(** X16: A JSON document whose top level is no object, be it a list, a number,
    a string, a truth value or null, makes rendering raise
    AttributeError at its first lookup. *)
Theorem top_level_must_be_a_mapping
    (unicode_title : string -> string) (results : value) (now : datetime) :
  (forall d, results <> VDict d) ->
  generate_markdown_report unicode_title results now = Raise (AttributeError "get").
Proof.
  intros Hresults. unfold generate_markdown_report. rewrite report_lines_clock.
  destruct results; try reflexivity. by destruct (Hresults entries).
Qed.

Lemma top_level_must_be_a_mapping_witness :
  (forall d, VList [VInt 1; VInt 2] <> VDict d) /\
  generate_markdown_report no_unicode_title (VList [VInt 1; VInt 2]) noon =
    Raise (AttributeError "get").
Proof.
  assert (H : forall d, VList [VInt 1; VInt 2] <> VDict d) by discriminate.
  split; [exact H|].
  exact (top_level_must_be_a_mapping no_unicode_title (VList [VInt 1; VInt 2]) noon H).
Defined.

Lemma breakdown_has_five_rows_witness :
  exists (report' : list string) (c1 c2 c3 c4 c5 : string),
    performance_breakdown (VDict []) [] = Ok (tt, report') /\
    report' =
      [] ++
      [ "## 🎯 Performance Breakdown by Operation"; "";
        "| Operation | TypeScript | Go | Rust | Speedup (Rust vs TS) |";
        "|-----------|-----------|-----|------|---------------------|";
        "| Dependency Analysis | " +:+ c1;
        "| PSR-4 Validation | " +:+ c2;
        "| Namespace Detection | " +:+ c3;
        "| Security Audit | " +:+ c4;
        "| License Analysis | " +:+ c5;
        "" ].
Proof.
  eexists.
  assert (Hrun : performance_breakdown (VDict []) [] = Ok (tt, _))
    by (vm_compute; reflexivity).
  destruct (breakdown_has_five_rows (VDict []) [] _ Hrun)
    as (c1 & c2 & c3 & c4 & c5 & Hrows).
  exists c1, c2, c3, c4, c5. split; [exact Hrun | exact Hrows].
Defined.

(** ** The environment and configuration sections (lines 25-48) *)

(** The text shown for a field: its value, or N/A when the key is missing *)
Definition field_or_na (section : pydict) (key : string) : string :=
  match dict_lookup key section with
  | Some v => Py.str v
  | None => "N/A"
  end.

(** The line of a field that is shown only when its key is there *)
Definition line_if_present (label : string) (section : pydict) (key : string) : list string :=
  match dict_lookup key section with
  | Some v => [label +:+ Py.str v]
  | None => []
  end.

(** X17: The environment section always has its OS, Architecture and Kernel
    lines, with N/A for a missing key and for a missing [system] entry
    altogether; the CPU and Memory lines are there only when the record
    has those keys.  A [system] entry that is no mapping raises. *)
Theorem environment_lines (d : pydict) (report : list string) :
  test_environment (VDict d) report =
    match dict_lookup "system" d with
    | Some (VDict _) | None =>
        let system :=
          match dict_lookup "system" d with
          | Some (VDict system) => system
          | _ => []
          end in
        Ok (tt, report ++
                ["## 🖥️ Test Environment"; "";
                 "- **OS:** " +:+ field_or_na system "os";
                 "- **Architecture:** " +:+ field_or_na system "arch";
                 "- **Kernel:** " +:+ field_or_na system "kernel"] ++
                line_if_present "- **CPU:** " system "cpu" ++
                line_if_present "- **Memory:** " system "memory" ++
                [""])
    | Some _ => Raise (AttributeError "get")
    end.
Proof.
  rewrite frame_test_environment. unfold test_environment. run_gen.
  unfold field_or_na, line_if_present.
  destruct (dict_lookup "system" d) as [[| | | | | |system]|]; try reflexivity.
  cbn. destruct (dict_lookup "os" system), (dict_lookup "arch" system),
    (dict_lookup "kernel" system), (dict_lookup "cpu" system),
    (dict_lookup "memory" system); reflexivity.
Qed.

(** X18: The configuration section is left out altogether when the record has
    no [test_details]; when it has, the section shows its five fields,
    each as N/A when its key is missing.  An entry that is no mapping
    raises. *)
Theorem configuration_lines (d : pydict) (report : list string) :
  test_details (VDict d) report =
    match dict_lookup "test_details" d with
    | None => Ok (tt, report)
    | Some (VDict details) =>
        Ok (tt, report ++
                ["## 📋 Test Configuration"; "";
                 "- **Repository:** " +:+ field_or_na details "repository";
                 "- **Files Analyzed:** " +:+ field_or_na details "files_analyzed";
                 "- **PHP Files:** " +:+ field_or_na details "php_files";
                 "- **Dependencies:** " +:+ field_or_na details "dependencies";
                 "- **Test Runs:** " +:+ field_or_na details "test_runs";
                 ""])
    | Some _ => Raise (AttributeError "get")
    end.
Proof.
  rewrite frame_test_details. unfold test_details. run_gen.
  unfold field_or_na.
  destruct (dict_lookup "test_details" d) as [[| | | | | |details]|] eqn:Hdetails;
    cbn; rewrite ?Hdetails; try reflexivity; cbn; rewrite ?app_nil_r; try reflexivity.
  destruct (dict_lookup "repository" details), (dict_lookup "files_analyzed" details),
    (dict_lookup "php_files" details), (dict_lookup "dependencies" details),
    (dict_lookup "test_runs" details); reflexivity.
Qed.

(** ** Missing sections *)

(** The record without one of its entries *)
Fixpoint dict_remove (key : string) (d : pydict) : pydict :=
  match d with
  | [] => []
  | (k, v) :: d' =>
      if String.eqb key k then dict_remove key d' else (k, v) :: dict_remove key d'
  end.

Lemma dict_lookup_removed (key : string) (d : pydict) :
  dict_lookup key (dict_remove key d) = None.
Proof.
  induction d as [|[k v] d IH]; [done|]. cbn.
  destruct (String.eqb key k) eqn:Hk; cbn; [done|]. by rewrite Hk.
Qed.

Lemma dict_lookup_other (key k : string) (d : pydict) :
  key <> k -> dict_lookup k (dict_remove key d) = dict_lookup k d.
Proof.
  intros Hne. induction d as [|[k' v] d IH]; [done|]. cbn.
  destruct (String.eqb_spec key k') as [<-|]; cbn.
  - by rewrite (proj2 (String.eqb_neq k key)).
  - by rewrite IH.
Qed.

Definition sections : list string :=
  ["timestamp"; "system"; "test_details"; "winners"; "results"; "summary"].

(** A block reads the record at its own key alone. *)
Ltac other_key :=
  intros;
  unfold title_block, test_environment, test_details, performance_summary,
    detailed_results, key_insights, conclusion;
  cbn [Py.get Py.contains Py.getitem];
  rewrite !dict_lookup_other by done;
  reflexivity.

Section OtherKey.

Variable unicode_title : string -> string.
Variables (key : string) (d : pydict).

Lemma title_block_other now :
  key <> "timestamp" -> title_block (VDict (dict_remove key d)) now = title_block (VDict d) now.
Proof. other_key. Qed.

Lemma test_environment_other :
  key <> "system" -> test_environment (VDict (dict_remove key d)) = test_environment (VDict d).
Proof. other_key. Qed.

Lemma test_details_other :
  key <> "test_details" -> test_details (VDict (dict_remove key d)) = test_details (VDict d).
Proof. other_key. Qed.

Lemma performance_summary_other :
  key <> "winners" ->
  performance_summary unicode_title (VDict (dict_remove key d)) =
    performance_summary unicode_title (VDict d).
Proof. other_key. Qed.

Lemma detailed_results_other :
  key <> "results" -> detailed_results (VDict (dict_remove key d)) = detailed_results (VDict d).
Proof. other_key. Qed.

Lemma key_insights_other :
  key <> "summary" -> key_insights (VDict (dict_remove key d)) = key_insights (VDict d).
Proof. other_key. Qed.

Lemma conclusion_other :
  key <> "summary" -> conclusion (VDict (dict_remove key d)) = conclusion (VDict d).
Proof. other_key. Qed.

End OtherKey.

Ltac block_succeeded H :=
  match type of H with
  | context [match ?m with Ok _ => _ | Raise _ => _ end] =>
      destruct m as [[? ?]|] eqn:?; cbn in H; [|discriminate H]
  end.

(** X1: Taking a top-level section out of a record that renders leaves a
    record that renders: a missing section never makes rendering fail. *)
Theorem missing_section_is_harmless
    (unicode_title : string -> string) (d : pydict) (key : string) (now : datetime)
    (text : string) :
  In key sections ->
  generate_markdown_report unicode_title (VDict d) now = Ok text ->
  exists text', generate_markdown_report unicode_title (VDict (dict_remove key d)) now = Ok text'.
Proof.
  intros Hkey H. unfold generate_markdown_report in *.
  rewrite report_lines_blocks in *.
  unfold mbind, result_bind in *.
  do 9 block_succeeded H. clear H.
  destruct Hkey as [<-|[<-|[<-|[<-|[<-|[<-|[]]]]]]];
    rewrite ?title_block_other, ?test_environment_other, ?test_details_other,
      ?performance_summary_other, ?detailed_results_other, ?key_insights_other,
      ?conclusion_other by done;
    repeat match goal with Hblock : _ = Ok _ |- _ => rewrite Hblock; clear Hblock end;
    unfold title_block, test_environment, test_details, performance_summary,
      detailed_results, key_insights, conclusion;
    cbn [Py.get Py.contains Py.getitem];
    rewrite ?dict_lookup_removed;
    eexists; reflexivity.
Qed.

(** A record with every section of the data model *)
Definition full_results : value :=
  VDict
    [ ("timestamp", VStr "2025-06-01T10:00:00Z");
      ("system", VDict [("os", VStr "Linux"); ("arch", VStr "x86_64"); ("cpu", VStr "Ryzen 9")]);
      ("test_details", VDict [("repository", VStr "acme/shop"); ("php_files", VInt 1200)]);
      ("winners", VDict [("binary_size", VStr "Rust"); ("startup_time", VStr "Go")]);
      ("results",
       VDict
         [ ("TypeScript", VDict [("startup_time_ms", VInt 100); ("dependency_analysis_ms", VInt 100)]);
           ("Go", VDict [("startup_time_ms", VInt 70); ("dependency_analysis_ms", VInt 35)]);
           ("Rust", VDict [("startup_time_ms", VInt 50); ("dependency_analysis_ms", VInt 20)]) ]);
      ("summary",
       VDict
         [ ("fastest_startup",
            VDict [("language", VStr "Rust"); ("time_ms", VInt 50);
                   ("improvement_vs_slowest", VStr "50%")]);
           ("performance_ranking",
            VList
              [ VDict [("rank", VInt 1); ("language", VStr "Rust"); ("score", VInt 95)];
                VDict [("rank", VInt 2); ("language", VStr "Go"); ("score", VInt 80)];
                VDict [("rank", VInt 3); ("language", VStr "TypeScript"); ("score", VInt 60)] ]) ]) ].

Definition full_entries : pydict :=
  match full_results with
  | VDict d => d
  | _ => []
  end.

Lemma missing_section_is_harmless_witness :
  In "summary" sections /\
  exists text,
    generate_markdown_report no_unicode_title (VDict full_entries) noon = Ok text /\
    exists text',
      generate_markdown_report no_unicode_title (VDict (dict_remove "summary" full_entries)) noon =
        Ok text'.
Proof.
  assert (Hin : In "summary" sections) by (cbn; tauto).
  split; [exact Hin|].
  eexists. split; [vm_compute; reflexivity|].
  eapply (missing_section_is_harmless no_unicode_title full_entries "summary" noon _ Hin).
  vm_compute. reflexivity.
Defined.

(** ** The sign of the speedup *)

(** A float that is not NaN and has its sign bit set *)
Definition negative_float (x : spec_float) : bool :=
  match x with
  | S754_zero true | S754_infinity true | S754_finite true _ _ => true
  | _ => false
  end.

Lemma shr_1_nonneg (mrs : shr_record) : 0 <= shr_m mrs -> 0 <= shr_m (shr_1 mrs).
Proof. destruct mrs as [[|[p|p|]|p] r s]; cbn; lia. Qed.

Lemma iter_shr_1_nonneg (p : positive) (mrs : shr_record) :
  0 <= shr_m mrs -> 0 <= shr_m (SpecFloat.iter_pos shr_1 p mrs).
Proof.
  revert mrs. induction p as [p IH|p IH|]; intros mrs Hm; cbn.
  - apply IH, IH, shr_1_nonneg, Hm.
  - apply IH, IH, Hm.
  - apply shr_1_nonneg, Hm.
Qed.

Lemma shr_fexp_nonneg (m e : Z) (l : location) :
  0 <= m -> 0 <= shr_m (fst (shr_fexp Float.prec Float.emax m e l)).
Proof.
  intros Hm. unfold shr_fexp, shr.
  assert (Hrecord : 0 <= shr_m (shr_record_of_loc m l)) by (by destruct l as [|[]]).
  destruct (fexp _ _ _ - e) as [|p|p]; cbn [fst]; [done| |done].
  by apply iter_shr_1_nonneg.
Qed.

Lemma round_nearest_even_nonneg (m : Z) (l : location) :
  0 <= m -> 0 <= round_nearest_even m l.
Proof. intros Hm. destruct l as [|[]]; cbn; [done| |done|lia]. destruct (Z.even m); lia. Qed.

(** Rounding a magnitude gives a zero, a finite float or an infinity of the
    sign asked for. *)
Lemma binary_round_aux_sign (s : bool) (m e : Z) (l : location) :
  0 <= m ->
  match binary_round_aux Float.prec Float.emax s m e l with
  | S754_zero s' | S754_infinity s' | S754_finite s' _ _ => s' = s
  | S754_nan => False
  end.
Proof.
  intros Hm. unfold binary_round_aux.
  pose proof (shr_fexp_nonneg m e l Hm) as H1.
  destruct (shr_fexp Float.prec Float.emax m e l) as [mrs' e']. cbn [fst] in H1.
  pose proof (shr_fexp_nonneg
                (round_nearest_even (shr_m mrs') (loc_of_shr_record mrs')) e' loc_Exact
                (round_nearest_even_nonneg _ _ H1)) as H2.
  destruct (shr_fexp Float.prec Float.emax _ e' loc_Exact) as [mrs'' e''].
  cbn [fst] in H2.
  destruct (shr_m mrs'') as [|p|p]; [done| |lia].
  by destruct (e'' <=? Float.emax - Float.prec).
Qed.

Lemma div_core_nonneg (m1 m2 : Z) :
  0 < m1 -> 0 < m2 ->
  0 <= fst (fst (SFdiv_core_binary Float.prec Float.emax m1 0 m2 0)).
Proof.
  intros H1 H2. unfold SFdiv_core_binary.
  set (s := _ - _ - _).
  set (m' := match s with Zpos _ => Z.shiftl m1 s | Z0 => m1 | Zneg _ => 0 end).
  assert (Hm' : 0 <= m').
  { subst m'. destruct s; [lia | apply Z.shiftl_nonneg; lia | lia]. }
  pose proof (Z.div_pos m' m2 Hm' H2) as Hq. unfold Z.div in Hq.
  by destruct (Z.div_eucl m' m2) as [q r].
Qed.

(** The quotient of a negative integer by a positive one is a negative
    float, when it is a float at all. *)
Lemma int_truediv_negative (a b : Z) (x : spec_float) :
  a < 0 -> 0 < b -> Float.int_truediv a b = Ok x -> negative_float x = true.
Proof.
  intros Ha Hb. destruct a as [|pa|pa]; [lia | lia |]. destruct b as [|pb|pb]; [lia | | lia].
  unfold Float.int_truediv.
  pose proof (div_core_nonneg (Zpos pa) (Zpos pb) eq_refl eq_refl) as Hq.
  change (Z.abs (Zneg pa)) with (Zpos pa). change (Z.abs (Zpos pb)) with (Zpos pb).
  destruct (SFdiv_core_binary Float.prec Float.emax (Zpos pa) 0 (Zpos pb) 0) as [[q e] loc].
  cbn [fst] in Hq.
  change (xorb (Zneg pa <? 0) (Zpos pb <? 0)) with true.
  pose proof (binary_round_aux_sign true q e loc Hq) as Hsign.
  destruct (binary_round_aux Float.prec Float.emax true q e loc) as [s|s| |s m e'];
    cbn; try done; intros [= <-]; by subst s.
Qed.

(** An integer quotient that is a float is a finite one, and the only
    exception for a divisor other than zero is OverflowError. *)
Lemma int_truediv_outcome (a b : Z) :
  b <> 0 ->
  match Float.int_truediv a b with
  | Ok x => Float.is_finite x = true
  | Raise e => e = OverflowError
  end.
Proof.
  intros Hb. unfold Float.int_truediv.
  destruct a, b; try done;
    destruct (SFdiv_core_binary _ _ _ _ _ _) as [[q e] loc];
    by destruct (Float.is_finite _) eqn:Hfinite.
Qed.

Lemma times_hundred_negative (x y : spec_float) :
  negative_float x = true -> Float.is_finite x = true ->
  Py.float_mul_int x 100 = Ok y -> negative_float y = true.
Proof.
  intros Hneg Hfinite. unfold Py.float_mul_int.
  change (Float.of_int 100) with (Ok (S754_finite false 7036874417766400 (-46))).
  cbn [mbind result_bind]. unfold mbind, result_bind. intros [= <-].
  destruct x as [[]|[]| |[] m e]; try discriminate Hneg; try discriminate Hfinite; [done|].
  unfold Float.mul, SFmul.
  pose proof (binary_round_aux_sign (xorb true false)
                (Zpos (m * 7036874417766400)) (e + -46) loc_Exact ltac:(lia)) as Hsign.
  destruct (binary_round_aux _ _ _ _ _ _) as [s|s| |s m' e']; try done; by subst s.
Qed.

Lemma format_fixed1_negative (x : spec_float) :
  negative_float x = true -> exists digits, Float.format_fixed1 x = "-" +:+ digits.
Proof.
  destruct x as [[]|[]| |[] m e]; try discriminate; intros _; cbn [Float.format_fixed1].
  - by exists "0.0".
  - by exists "inf".
  - eexists. reflexivity.
Qed.

(** X19: When the Rust time is the larger of two positive times the row still
    says faster, after a percentage with a minus sign; a quotient too
    large for a float raises OverflowError instead. *)
Theorem slower_rust_shows_negative_speedup
    (res : value) (op_name op_key : string) (ts rust : Z) (go_val : value)
    (report : list string) :
  metric res "TypeScript" op_key (VInt 0) = Ok (VInt ts) ->
  metric res "Go" op_key (VInt 0) = Ok go_val ->
  metric res "Rust" op_key (VInt 0) = Ok (VInt rust) ->
  0 < ts < rust ->
  operation_row res (op_name, op_key) report = Raise OverflowError \/
  exists digits : string,
    operation_row res (op_name, op_key) report =
      Ok (tt, report ++
              ["| " +:+ op_name +:+ " | " +:+ Str.int_str ts +:+ " ms | " +:+
               Py.str go_val +:+ " ms | " +:+ Str.int_str rust +:+ " ms | -" +:+
               digits +:+ "% faster |"]).
Proof.
  intros Hts Hgo Hrust Horder. unfold operation_row. run_gen.
  rewrite Hts, Hgo, Hrust. cbn.
  destruct (Z.eqb_spec ts 0) as [|_]; [lia|].
  destruct (Z.eqb_spec rust 0) as [|_]; [lia|].
  cbn.
  pose proof (int_truediv_outcome (ts - rust) ts ltac:(lia)) as Houtcome.
  destruct (Float.int_truediv (ts - rust) ts) as [ratio|e] eqn:Hratio.
  - pose proof (int_truediv_negative (ts - rust) ts ratio ltac:(lia) ltac:(lia) Hratio) as Hneg.
    cbn.
    destruct (Py.float_mul_int ratio 100) as [speedup|e] eqn:Hspeedup.
    + pose proof (times_hundred_negative _ _ Hneg Houtcome Hspeedup) as Hneg'.
      destruct (format_fixed1_negative speedup Hneg') as [digits Hdigits].
      right. exists digits. cbn. rewrite Hdigits. reflexivity.
    + exfalso. revert Hspeedup. unfold Py.float_mul_int.
      by change (Float.of_int 100) with (Ok (S754_finite false 7036874417766400 (-46))).
  - left. cbn. by rewrite Houtcome.
Qed.

Lemma slower_rust_shows_negative_speedup_witness :
  let res :=
    VDict [("TypeScript", VDict [("license_analysis_ms", VInt 20)]);
           ("Rust", VDict [("license_analysis_ms", VInt 100)])] in
  metric res "TypeScript" "license_analysis_ms" (VInt 0) = Ok (VInt 20) /\
  metric res "Go" "license_analysis_ms" (VInt 0) = Ok (VInt 0) /\
  metric res "Rust" "license_analysis_ms" (VInt 0) = Ok (VInt 100) /\
  0 < 20 < 100 /\
  operation_row res ("License Analysis", "license_analysis_ms") [] =
    Ok (tt, ["| License Analysis | 20 ms | 0 ms | 100 ms | -400.0% faster |"]) /\
  (operation_row res ("License Analysis", "license_analysis_ms") [] = Raise OverflowError \/
   exists digits : string,
     operation_row res ("License Analysis", "license_analysis_ms") [] =
       Ok (tt, [] ++
               ["| " +:+ "License Analysis" +:+ " | " +:+ Str.int_str 20 +:+ " ms | " +:+
                Py.str (VInt 0) +:+ " ms | " +:+ Str.int_str 100 +:+ " ms | -" +:+
                digits +:+ "% faster |"])).
Proof.
  intros res. do 3 (split; [reflexivity|]).
  assert (Horder : 0 < 20 < 100) by lia.
  split; [exact Horder|]. split; [vm_compute; reflexivity|].
  exact (slower_rust_shows_negative_speedup res "License Analysis" "license_analysis_ms"
           20 100 (VInt 0) [] eq_refl eq_refl eq_refl Horder).
Defined.

(** ** The title block and the key insights (lines 18-23 and 126-155) *)

(** X20: The Test Date line shows what the record has under [timestamp],
    whatever its type: a null there is shown as None, for N/A stands for
    a missing key only. *)
Theorem test_date_line
    (unicode_title : string -> string) (d : pydict) (now : datetime) (lines : list string) :
  report_lines unicode_title (VDict d) now = Ok lines ->
  nth 3 lines "" =
    "**Test Date:** " +:+
    match dict_lookup "timestamp" d with
    | Some v => Py.str v
    | None => "N/A"
    end.
Proof.
  rewrite report_lines_clock. cbn.
  destruct (report_tail unicode_title (VDict d) []) as [[[] rest]|]; cbn; [|done].
  intros [= <-]. cbn.
  by destruct (dict_lookup "timestamp" d).
Qed.

Lemma test_date_line_witness :
  exists lines,
    report_lines no_unicode_title (VDict [("timestamp", VNone)]) noon = Ok lines /\
    nth 3 lines "" = "**Test Date:** " +:+ "None".
Proof.
  eexists.
  assert (Hlines : report_lines no_unicode_title (VDict [("timestamp", VNone)]) noon = Ok _)
    by (vm_compute; reflexivity).
  split; [exact Hlines|].
  exact (test_date_line no_unicode_title [("timestamp", VNone)] noon _ Hlines).
Defined.

(** An insight of the summary: absent, or a mapping with the three keys
    that its lines read *)
Definition insight_ready (summary : pydict) (key value_key improvement_key : string) : bool :=
  match dict_lookup key summary with
  | None => true
  | Some (VDict entry) =>
      match dict_lookup "language" entry, dict_lookup value_key entry,
            dict_lookup improvement_key entry with
      | Some _, Some _, Some _ => true
      | _, _, _ => false
      end
  | Some _ => false
  end.

Definition insight_lines (summary : pydict) (key heading value_label value_key unit_name
                          improvement_key comparison : string) : list string :=
  match dict_lookup key summary with
  | Some (VDict entry) =>
      [ heading;
        "- **Winner:** " +:+ field_or_na entry "language";
        "- **" +:+ value_label +:+ ":** " +:+ field_or_na entry value_key +:+ " " +:+ unit_name;
        "- **Improvement:** " +:+ field_or_na entry improvement_key +:+ " " +:+ comparison;
        "" ]
  | _ => []
  end.

(** X21: With a summary whose insights are complete where they are present,
    the key insights come out in the fixed order startup, memory,
    analysis, whatever the order of the keys in the record, each with its
    heading, three lines and a blank line, and an absent one is skipped. *)
Theorem key_insights_in_fixed_order (d summary : pydict) (report : list string) :
  dict_lookup "summary" d = Some (VDict summary) ->
  insight_ready summary "fastest_startup" "time_ms" "improvement_vs_slowest" = true ->
  insight_ready summary "lowest_memory" "memory_mb" "improvement_vs_highest" = true ->
  insight_ready summary "fastest_analysis" "time_ms" "improvement_vs_slowest" = true ->
  key_insights (VDict d) report =
    Ok (tt, report ++
            ["## 💡 Key Insights"; ""] ++
            insight_lines summary "fastest_startup" "### Startup Performance"
              "Time" "time_ms" "ms" "improvement_vs_slowest" "faster than slowest" ++
            insight_lines summary "lowest_memory" "### Memory Efficiency"
              "Usage" "memory_mb" "MB" "improvement_vs_highest" "less than highest" ++
            insight_lines summary "fastest_analysis" "### Analysis Speed"
              "Time" "time_ms" "ms" "improvement_vs_slowest" "faster than slowest").
Proof.
  intros Hsummary Hstartup Hmemory Hanalysis.
  rewrite frame_key_insights. unfold key_insights. run_gen.
  rewrite Hsummary. cbn.
  unfold insight_ready in *. unfold insight_lines, field_or_na.
  destruct (dict_lookup "fastest_startup" summary) as [[| | | | | |fs]|];
    try discriminate Hstartup;
  destruct (dict_lookup "lowest_memory" summary) as [[| | | | | |lm]|];
    try discriminate Hmemory;
  destruct (dict_lookup "fastest_analysis" summary) as [[| | | | | |fa]|];
    try discriminate Hanalysis;
  cbn;
  repeat match goal with
  | H : context [dict_lookup ?k ?e] |- _ =>
      destruct (dict_lookup k e); try discriminate H
  end;
  reflexivity.
Qed.

Lemma key_insights_in_fixed_order_witness :
  let summary :=
    [ ("fastest_analysis",
       VDict [("language", VStr "Rust"); ("time_ms", VInt 120);
              ("improvement_vs_slowest", VStr "89%")]);
      ("fastest_startup",
       VDict [("language", VStr "Go"); ("time_ms", VInt 5);
              ("improvement_vs_slowest", VStr "95%")]) ] in
  let d := [("summary", VDict summary)] in
  dict_lookup "summary" d = Some (VDict summary) /\
  insight_ready summary "fastest_startup" "time_ms" "improvement_vs_slowest" = true /\
  insight_ready summary "lowest_memory" "memory_mb" "improvement_vs_highest" = true /\
  insight_ready summary "fastest_analysis" "time_ms" "improvement_vs_slowest" = true /\
  key_insights (VDict d) [] =
    Ok (tt, [ "## 💡 Key Insights"; "";
              "### Startup Performance"; "- **Winner:** Go"; "- **Time:** 5 ms";
              "- **Improvement:** 95% faster than slowest"; "";
              "### Analysis Speed"; "- **Winner:** Rust"; "- **Time:** 120 ms";
              "- **Improvement:** 89% faster than slowest"; "" ]).
Proof.
  intros summary d. do 4 (split; [reflexivity|]).
  exact (key_insights_in_fixed_order d summary [] eq_refl eq_refl eq_refl eq_refl).
Defined.

(** ** The program (lines 10-13 and 214-228) *)

Ltac run_main := cbn -[output_path generate_markdown_report].

Section ProgramProperties.

Variable unicode_title : string -> string.
Variable json_loads : string -> option value.

(** C8: when the input file does not exist, cannot be read, or does not
    hold a JSON document, the program ends with a status other than
    zero and leaves the files as they were: no report is written, not
    even in part, and nothing is printed. *)
Theorem load_failure_is_fatal
    (script results_file : string) (rest : list string) (w : world) :
  (files w !! results_file = None \/
   exists f, files w !! results_file = Some f /\
             (readable f = false \/ json_loads (content f) = None)) ->
  exists status,
    run unicode_title json_loads (script :: results_file :: rest) w = (status, w) /\ status <> 0.
Proof.
  intros Hload. exists 1. split; [|done].
  unfold run, main, load_results, read_text. cbn.
  unfold mbind, prog_bind.
  destruct Hload as [-> | (f & -> & [-> | Hjson])]; [done | done |].
  destruct (readable f); [|done].
  by rewrite Hjson.
Qed.

(** C9: when the program ends with status zero, the file at the output
    path holds exactly the text that rendering returned for the record
    parsed from the input file. *)
Theorem written_report_is_rendered_text (argv : list string) (w w' : world) :
  run unicode_title json_loads argv w = (0, w') ->
  exists (results_file : string) (input : file) (results : value)
         (report : string) (output : file),
    argv !! 1%nat = Some results_file /\
    files w !! results_file = Some input /\
    json_loads (content input) = Some results /\
    generate_markdown_report unicode_title results (clock w) = Ok report /\
    files w' !! output_path results_file = Some output /\
    content output = report.
Proof.
  unfold run, main.
  destruct argv as [|script [|results_file rest]]; try (by (cbn; intros [=])).
  unfold load_results, read_text, datetime_now, pure, write_text, print.
  unfold mbind, mret, prog_bind, prog_ret, raise, sys_exit. run_main.
  destruct (files w !! results_file) as [input|] eqn:Hinput; [|by (cbn; intros [=])].
  destruct (readable input); [|by (cbn; intros [=])].
  run_main.
  destruct (json_loads (content input)) as [results|] eqn:Hjson; [|by (cbn; intros [=])].
  destruct (generate_markdown_report unicode_title results (clock w)) as [report|] eqn:Hreport;
    [|by (cbn; intros [=])].
  run_main.
  destruct (files w !! output_path results_file) as [old|] eqn:Hold.
  - destruct (writable old); [|by (cbn; intros [=])].
    intros [= <-]. eexists results_file, input, results, report, _.
    do 4 (split; [done|]).
    split; [apply lookup_insert_eq | done].
  - destruct (creatable w (output_path results_file)); [|by (cbn; intros [=])].
    intros [= <-]. eexists results_file, input, results, report, _.
    do 4 (split; [done|]).
    split; [apply lookup_insert_eq | done].
Qed.

(** X2: The program writes to no path but the output path. *)
Lemma only_the_output_file_is_written (argv : list string) (w : world) (path : string) :
  path <> output_path (nth 1 argv "") ->
  files (snd (run unicode_title json_loads argv w)) !! path = files w !! path.
Proof.
  intros Hpath. unfold run, main.
  destruct argv as [|script [|results_file rest]]; try done.
  change (nth 1 (script :: results_file :: rest) EmptyString) with results_file in *.
  unfold load_results, read_text, datetime_now, pure, write_text, print.
  unfold mbind, mret, prog_bind, prog_ret, raise, sys_exit. run_main.
  destruct (files w !! results_file) as [input|]; [|done].
  destruct (readable input); [|done].
  run_main.
  destruct (json_loads (content input)) as [results|]; [|done].
  destruct (generate_markdown_report unicode_title results (clock w)) as [report|]; [|done].
  run_main.
  destruct (files w !! output_path results_file) as [old|].
  - destruct (writable old); [|done]. cbn -[output_path]. by rewrite lookup_insert_ne.
  - destruct (creatable w (output_path results_file)); [|done].
    cbn -[output_path]. by rewrite lookup_insert_ne.
Qed.

End ProgramProperties.

(** A parser that knows the empty object only, and a world with one input
    file, for running the program on. *)
Definition parse_empty_object (text : string) : option value :=
  if String.eqb text "{}" then Some (VDict []) else None.

Definition one_file_world : world :=
  {| files := {[ "bench.json" := {| content := "{}"; readable := true; writable := true |} ]};
     creatable := fun _ => true;
     clock := noon;
     stdout := [] |}.

Lemma load_failure_is_fatal_witness :
  files one_file_world !! "missing.json" = None /\
  exists status,
    run no_unicode_title parse_empty_object ["generate-report.py"; "missing.json"] one_file_world =
      (status, one_file_world) /\ status <> 0.
Proof.
  split; [reflexivity|].
  apply (load_failure_is_fatal no_unicode_title parse_empty_object
           "generate-report.py" "missing.json" [] one_file_world).
  left. reflexivity.
Defined.

Lemma written_report_is_rendered_text_witness :
  let argv := ["generate-report.py"; "bench.json"] in
  let w' := snd (run no_unicode_title parse_empty_object argv one_file_world) in
  run no_unicode_title parse_empty_object argv one_file_world = (0, w') /\
  exists (results_file : string) (input : file) (results : value)
         (report : string) (output : file),
    argv !! 1%nat = Some results_file /\
    files one_file_world !! results_file = Some input /\
    parse_empty_object (content input) = Some results /\
    generate_markdown_report no_unicode_title results (clock one_file_world) = Ok report /\
    files w' !! output_path results_file = Some output /\
    content output = report.
Proof.
  intros argv w'.
  assert (Hrun : run no_unicode_title parse_empty_object argv one_file_world = (0, w'))
    by (vm_compute; reflexivity).
  split; [exact Hrun|].
  exact (written_report_is_rendered_text no_unicode_title parse_empty_object argv one_file_world w' Hrun).
Defined.

(** ** The output path (line 223) *)

(** The specification's output path: the input path with its trailing
    .json replaced by _report.md, and the path itself when it does not end
    in .json. *)
Fixpoint replace_suffix (old new s : string) : string :=
  if String.eqb s old then new
  else match s with
       | EmptyString => EmptyString
       | String c s' => String c (replace_suffix old new s')
       end.

Definition spec_output_path (results_file : string) : string :=
  replace_suffix ".json" "_report.md" results_file.

Lemma append_cons (c : ascii) (s t : string) : String c s +:+ t = String c (s +:+ t).
Proof. reflexivity. Qed.

Lemma length_append (s t : string) :
  String.length (s +:+ t) = (String.length s + String.length t)%nat.
Proof.
  induction s as [|c s IH]; [done|].
  rewrite append_cons. cbn. by rewrite IH.
Qed.

Lemma prefix_split (p s : string) :
  String.prefix p s = true -> exists rest, s = p +:+ rest.
Proof.
  revert s. induction p as [|c p IH]; intros s Hp.
  - by exists s.
  - destruct s as [|c' s]; [done|]. cbn in Hp.
    destruct (ascii_dec c c') as [<-|]; [|done].
    destruct (IH s Hp) as [rest ->]. by exists rest.
Qed.

Lemma replace_from_exhausted (old new s : string) (k : nat) :
  (String.length s <= k)%nat -> Str.replace_from old new k s = EmptyString.
Proof.
  revert k. induction s as [|c s IH]; intros k Hk; [done|].
  destruct k as [|k]; cbn in Hk; [lia|].
  cbn. apply IH. lia.
Qed.

(** X9: Where .json occurs in the path once, as its suffix, line 223 gives the
    path the specification asks for. *)
Lemma output_path_trailing_json (stem : string) :
  (forall a b, stem +:+ ".json" = a +:+ ".json" +:+ b -> b = EmptyString) ->
  output_path (stem +:+ ".json") = stem +:+ "_report.md".
Proof.
  unfold output_path, Str.replace.
  induction stem as [|c stem IH]; intros Honce; [done|].
  rewrite !append_cons.
  change (Str.replace_from ".json" "_report.md" 0 (String c (stem +:+ ".json")))
    with (if String.prefix ".json" (String c (stem +:+ ".json"))
          then "_report.md" +:+ Str.replace_from ".json" "_report.md" 4 (stem +:+ ".json")
          else String c (Str.replace_from ".json" "_report.md" 0 (stem +:+ ".json"))).
  destruct (String.prefix ".json" (String c (stem +:+ ".json"))) eqn:Hp.
  - apply prefix_split in Hp as [rest Hrest].
    assert (rest = EmptyString) as ->.
    { apply (Honce EmptyString rest). by rewrite append_cons. }
    apply (f_equal String.length) in Hrest.
    cbn in Hrest. rewrite !length_append in Hrest. cbn in Hrest. lia.
  - f_equal. apply IH. intros a b Hab.
    apply (Honce (String c a) b). by rewrite !append_cons, Hab.
Qed.

Lemma spec_output_path_trailing_json (stem : string) :
  spec_output_path (stem +:+ ".json") = stem +:+ "_report.md".
Proof.
  unfold spec_output_path.
  induction stem as [|c stem IH]; [done|].
  rewrite !append_cons.
  change (replace_suffix ".json" "_report.md" (String c (stem +:+ ".json")))
    with (if String.eqb (String c (stem +:+ ".json")) ".json" then "_report.md"
          else String c (replace_suffix ".json" "_report.md" (stem +:+ ".json"))).
  destruct (String.eqb_spec (String c (stem +:+ ".json")) ".json") as [Heq|_].
  - apply (f_equal String.length) in Heq.
    cbn in Heq. rewrite length_append in Heq. cbn in Heq. lia.
  - by rewrite IH.
Qed.

(** C3 fails on the code: [str.replace] rewrites every .json of the path,
    not the trailing one alone, so an input below a directory named
    runs.json.d is reported into a directory of another name. *)
Theorem output_path_rewrites_every_occurrence :
  output_path "runs.json.d/latest.json" = "runs_report.md.d/latest_report.md"
  /\ spec_output_path "runs.json.d/latest.json" = "runs.json.d/latest_report.md"
  /\ output_path "bench.json" = spec_output_path "bench.json".
Proof. repeat split. Qed.

(** ** More on the program *)

(** A path in which .json does not occur is its own output path. *)
Lemma replace_from_absent (old new s : string) :
  Str.contains old s = false -> Str.replace_from old new 0 s = s.
Proof.
  induction s as [|c s IH]; intros Habsent; [done|].
  change (Str.contains old (String c s))
    with (String.prefix old (String c s) || Str.contains old s) in Habsent.
  apply orb_false_iff in Habsent as [Hprefix Hrest].
  change (Str.replace_from old new 0 (String c s))
    with (if String.prefix old (String c s)
          then new +:+ Str.replace_from old new (String.length old - 1) s
          else String c (Str.replace_from old new 0 s)).
  rewrite Hprefix. by rewrite IH.
Qed.

Lemma output_path_without_json (results_file : string) :
  Str.contains ".json" results_file = false -> output_path results_file = results_file.
Proof. apply replace_from_absent. Qed.

Section ProgramRuns.

Variable unicode_title : string -> string.
Variable json_loads : string -> option value.

Ltac run_program :=
  unfold run, main, load_results, read_text, datetime_now, pure, write_text, print;
  unfold mbind, mret, prog_bind, prog_ret, raise, sys_exit;
  run_main.

(** X3: Without a path on the command line the program prints the usage line,
    exits with status 1 and touches no file. *)
Theorem usage_without_argument (argv : list string) (w : world) :
  (length argv < 2)%nat ->
  run unicode_title json_loads argv w =
    (1, {| files := files w; creatable := creatable w; clock := clock w;
           stdout := stdout w ++
                     ["Usage: python3 generate-report.py <benchmark_results.json>"] |}).
Proof.
  intros Hlen. destruct argv as [|script [|results_file rest]]; [done | done |].
  cbn in Hlen. lia.
Qed.

(** X4: An exception raised while rendering ends the program with status 1
    before the output file is opened: the world stays as it was. *)
Theorem render_failure_writes_nothing
    (script results_file : string) (rest : list string) (w : world)
    (input : file) (results : value) (e : exn) :
  files w !! results_file = Some input ->
  readable input = true ->
  json_loads (content input) = Some results ->
  generate_markdown_report unicode_title results (clock w) = Raise e ->
  run unicode_title json_loads (script :: results_file :: rest) w = (1, w).
Proof.
  intros Hinput Hreadable Hjson Hrender. run_program.
  rewrite Hinput, Hreadable. run_main. by rewrite Hjson, Hrender.
Qed.

(** X5: When the output file cannot be written, since it exists and is
    protected or since it cannot be created, the program ends with
    status 1, prints nothing and leaves the files as they were. *)
Theorem write_failure_prints_nothing
    (script results_file : string) (rest : list string) (w : world)
    (input : file) (results : value) (report : string) :
  files w !! results_file = Some input ->
  readable input = true ->
  json_loads (content input) = Some results ->
  generate_markdown_report unicode_title results (clock w) = Ok report ->
  (exists old, files w !! output_path results_file = Some old /\ writable old = false) \/
  (files w !! output_path results_file = None /\ creatable w (output_path results_file) = false) ->
  run unicode_title json_loads (script :: results_file :: rest) w = (1, w).
Proof.
  intros Hinput Hreadable Hjson Hrender Hwrite. run_program.
  rewrite Hinput, Hreadable. run_main. rewrite Hjson, Hrender. run_main.
  destruct Hwrite as [(old & -> & ->) | [-> ->]]; done.
Qed.

(** What a run that ends with status 0 has done *)
Lemma successful_run (argv : list string) (w w' : world) :
  run unicode_title json_loads argv w = (0, w') ->
  exists (results_file : string) (input : file) (results : value)
         (report : string) (output : file),
    argv !! 1%nat = Some results_file /\
    files w !! results_file = Some input /\
    json_loads (content input) = Some results /\
    generate_markdown_report unicode_title results (clock w) = Ok report /\
    content output = report /\
    w' = {| files := <[output_path results_file := output]> (files w);
            creatable := creatable w;
            clock := clock w;
            stdout := stdout w ++
                      ["✓ Report generated: " +:+ output_path results_file; report] |}.
Proof.
  destruct argv as [|script [|results_file rest]]; try (by (cbn; intros [=])).
  run_program.
  destruct (files w !! results_file) as [input|] eqn:Hinput; [|by (cbn; intros [=])].
  destruct (readable input); [|by (cbn; intros [=])].
  run_main.
  destruct (json_loads (content input)) as [results|] eqn:Hjson; [|by (cbn; intros [=])].
  destruct (generate_markdown_report unicode_title results (clock w)) as [report|] eqn:Hrender;
    [|by (cbn; intros [=])].
  run_main.
  destruct (files w !! output_path results_file) as [old|].
  - destruct (writable old); [|by (cbn; intros [=])].
    intros [= <-]. eexists results_file, input, results, report, _.
    do 4 (split; [done|]). split; last (by rewrite <- app_assoc). done.
  - destruct (creatable w (output_path results_file)); [|by (cbn; intros [=])].
    intros [= <-]. eexists results_file, input, results, report, _.
    do 4 (split; [done|]). split; last (by rewrite <- app_assoc). done.
Qed.

(** X6: A run that ends with status 0 has printed two things after what was
    on the standard output before: the line that names the output path,
    then the very text it wrote to that path.  The clock is as before. *)
Theorem success_prints_path_and_report (argv : list string) (w w' : world) :
  run unicode_title json_loads argv w = (0, w') ->
  exists (results_file report : string) (output : file),
    argv !! 1%nat = Some results_file /\
    files w' !! output_path results_file = Some output /\
    content output = report /\
    stdout w' =
      stdout w ++ ["✓ Report generated: " +:+ output_path results_file; report] /\
    clock w' = clock w.
Proof.
  intros Hrun.
  destruct (successful_run argv w w' Hrun)
    as (p & input & results & report & output & Hp & _ & _ & _ & Hcontent & ->).
  exists p, report, output. cbn -[output_path].
  split; [done|]. split; [apply lookup_insert_eq|]. done.
Qed.

(** X8: An input path without .json in it is the output path too: a run that
    ends with status 0 has replaced the input file by the report. *)
Theorem input_without_json_is_overwritten
    (script results_file : string) (rest : list string) (w w' : world) :
  Str.contains ".json" results_file = false ->
  run unicode_title json_loads (script :: results_file :: rest) w = (0, w') ->
  exists (input : file) (results : value) (report : string) (output : file),
    files w !! results_file = Some input /\
    json_loads (content input) = Some results /\
    generate_markdown_report unicode_title results (clock w) = Ok report /\
    files w' !! results_file = Some output /\
    content output = report.
Proof.
  intros Hpath Hrun.
  destruct (successful_run _ w w' Hrun)
    as (p & input & results & report & output & Hp & Hin & Hjson & Hrender & Hcontent & ->).
  injection Hp as [= <-].
  exists input, results, report, output. cbn -[output_path].
  rewrite (output_path_without_json results_file Hpath).
  do 3 (split; [done|]). split; [apply lookup_insert_eq | done].
Qed.

End ProgramRuns.

Lemma output_path_trailing_json_witness :
  (forall a b, "bench" +:+ ".json" = a +:+ ".json" +:+ b -> b = EmptyString) /\
  output_path ("bench" +:+ ".json") = "bench" +:+ "_report.md".
Proof.
  assert (Honce : forall a b, "bench" +:+ ".json" = a +:+ ".json" +:+ b -> b = EmptyString).
  { intros a b H.
    repeat (destruct a as [|? a]; vm_compute in H;
            [ try discriminate H; by simplify_eq
            | try discriminate H; injection H as _ H ]). }
  split; [exact Honce|].
  exact (output_path_trailing_json "bench" Honce).
Defined.

(** A parser whose record has a summary entry without its keys, a world
    where nothing can be created, and one whose input has no extension *)
Definition parse_incomplete_summary (text : string) : option value :=
  Some (VDict [("summary", VDict [("fastest_startup", VDict [])])]).

Definition read_only_world : world :=
  {| files := files one_file_world;
     creatable := fun _ => false;
     clock := noon;
     stdout := [] |}.

Definition bare_name_world : world :=
  {| files := {[ "bench" := {| content := "{}"; readable := true; writable := true |} ]};
     creatable := fun _ => true;
     clock := noon;
     stdout := [] |}.

Definition bench_file : file := {| content := "{}"; readable := true; writable := true |}.

Lemma only_the_output_file_is_written_witness :
  let argv := ["generate-report.py"; "bench.json"] in
  "bench.json" <> output_path (nth 1 argv "") /\
  files (snd (run no_unicode_title parse_empty_object argv one_file_world)) !! "bench.json" =
    files one_file_world !! "bench.json".
Proof.
  intros argv.
  assert (Hpath : "bench.json" <> output_path (nth 1 argv "")) by (vm_compute; discriminate).
  split; [exact Hpath|].
  exact (only_the_output_file_is_written no_unicode_title parse_empty_object argv one_file_world "bench.json" Hpath).
Defined.

Lemma usage_without_argument_witness :
  (length ["generate-report.py"] < 2)%nat /\
  run no_unicode_title parse_empty_object ["generate-report.py"] one_file_world =
    (1, {| files := files one_file_world; creatable := creatable one_file_world;
           clock := clock one_file_world;
           stdout := stdout one_file_world ++
                     ["Usage: python3 generate-report.py <benchmark_results.json>"] |}).
Proof.
  assert (Hlen : (length ["generate-report.py"] < 2)%nat) by (cbn; lia).
  split; [exact Hlen|].
  exact (usage_without_argument no_unicode_title parse_empty_object ["generate-report.py"] one_file_world Hlen).
Defined.

Lemma render_failure_writes_nothing_witness :
  files one_file_world !! "bench.json" = Some bench_file /\
  readable bench_file = true /\
  parse_incomplete_summary (content bench_file) =
    Some (VDict [("summary", VDict [("fastest_startup", VDict [])])]) /\
  generate_markdown_report no_unicode_title
    (VDict [("summary", VDict [("fastest_startup", VDict [])])]) (clock one_file_world) =
    Raise (KeyError "language") /\
  run no_unicode_title parse_incomplete_summary ["generate-report.py"; "bench.json"] one_file_world =
    (1, one_file_world).
Proof.
  assert (Hrender : generate_markdown_report no_unicode_title
                      (VDict [("summary", VDict [("fastest_startup", VDict [])])])
                      (clock one_file_world) = Raise (KeyError "language"))
    by (vm_compute; reflexivity).
  do 3 (split; [reflexivity|]). split; [exact Hrender|].
  exact (render_failure_writes_nothing no_unicode_title parse_incomplete_summary
           "generate-report.py" "bench.json" [] one_file_world bench_file _ _
           eq_refl eq_refl eq_refl Hrender).
Defined.

Lemma write_failure_prints_nothing_witness :
  exists report,
    files read_only_world !! "bench.json" = Some bench_file /\
    readable bench_file = true /\
    parse_empty_object (content bench_file) = Some (VDict []) /\
    generate_markdown_report no_unicode_title (VDict []) (clock read_only_world) = Ok report /\
    (files read_only_world !! output_path "bench.json" = None /\
     creatable read_only_world (output_path "bench.json") = false) /\
    run no_unicode_title parse_empty_object ["generate-report.py"; "bench.json"] read_only_world =
      (1, read_only_world).
Proof.
  eexists.
  assert (Hrender : generate_markdown_report no_unicode_title (VDict []) (clock read_only_world) = Ok _)
    by (vm_compute; reflexivity).
  assert (Hout : files read_only_world !! output_path "bench.json" = None /\
                 creatable read_only_world (output_path "bench.json") = false)
    by (split; reflexivity).
  do 3 (split; [reflexivity|]). split; [exact Hrender|]. split; [exact Hout|].
  exact (write_failure_prints_nothing no_unicode_title parse_empty_object
           "generate-report.py" "bench.json" [] read_only_world bench_file _ _
           eq_refl eq_refl eq_refl Hrender (or_intror Hout)).
Defined.

Lemma success_prints_path_and_report_witness :
  let argv := ["generate-report.py"; "bench.json"] in
  let w' := snd (run no_unicode_title parse_empty_object argv one_file_world) in
  run no_unicode_title parse_empty_object argv one_file_world = (0, w') /\
  exists (results_file report : string) (output : file),
    argv !! 1%nat = Some results_file /\
    files w' !! output_path results_file = Some output /\
    content output = report /\
    stdout w' =
      stdout one_file_world ++
      ["✓ Report generated: " +:+ output_path results_file; report] /\
    clock w' = clock one_file_world.
Proof.
  intros argv w'.
  assert (Hrun : run no_unicode_title parse_empty_object argv one_file_world = (0, w'))
    by (vm_compute; reflexivity).
  split; [exact Hrun|].
  exact (success_prints_path_and_report no_unicode_title parse_empty_object argv one_file_world w' Hrun).
Defined.

Lemma input_without_json_is_overwritten_witness :
  let w' := snd (run no_unicode_title parse_empty_object ["generate-report.py"; "bench"] bare_name_world) in
  Str.contains ".json" "bench" = false /\
  run no_unicode_title parse_empty_object ["generate-report.py"; "bench"] bare_name_world = (0, w') /\
  exists (input : file) (results : value) (report : string) (output : file),
    files bare_name_world !! "bench" = Some input /\
    parse_empty_object (content input) = Some results /\
    generate_markdown_report no_unicode_title results (clock bare_name_world) = Ok report /\
    files w' !! "bench" = Some output /\
    content output = report.
Proof.
  intros w'.
  assert (Hrun : run no_unicode_title parse_empty_object ["generate-report.py"; "bench"] bare_name_world = (0, w'))
    by (vm_compute; reflexivity).
  split; [reflexivity|]. split; [exact Hrun|].
  exact (input_without_json_is_overwritten no_unicode_title parse_empty_object
           "generate-report.py" "bench" [] bare_name_world w' eq_refl Hrun).
Defined.
